(** * Naked: a command line application scaffold

    A shallow embedding of [lib/Naked/app.py] (the dispatcher [main]) and of
    [lib/Naked/toolshed/system.py] (path, directory listing and stream
    helpers), together with a model of the command line classifier
    [Naked.commandline.Command] that the dispatcher consumes.

    Python strings are [string], argument vectors are [list string], exit
    codes are [Z].  Effects (writes to the standard streams, calls of
    external collaborators, [SystemExit]) are threaded through a small
    trace-and-exception monad. *)

From Stdlib Require Import String Ascii List Bool Arith ZArith Lia.
Import ListNotations.

Local Open Scope list_scope.
Local Open Scope string_scope.

(* ===================================================================== *)
(** * Python string primitives *)
(* ===================================================================== *)

Module PyStr.

(** [s.startswith(pre)] *)
Definition startswith (s pre : string) : bool := String.prefix pre s.

(** [s[:n]] for [0 <= n] *)
Fixpoint take (n : nat) (s : string) : string :=
  match n, s with
  | S k, String a rest => String a (take k rest)
  | _, _ => EmptyString
  end.

(** [s[n:]] for [0 <= n] *)
Fixpoint drop (n : nat) (s : string) : string :=
  match n, s with
  | S k, String _ rest => drop k rest
  | _, _ => s
  end.

(** [s.endswith(suf)] *)
Definition endswith (s suf : string) : bool :=
  Nat.leb (String.length suf) (String.length s)
  && String.eqb (drop (String.length s - String.length suf) s) suf.

(** [s.rfind(c)] for a one-character needle: the highest index holding [c],
    or [-1].  [i] is the index of the head of [s], [acc] the best so far. *)
Fixpoint rfind_from (c : ascii) (s : string) (i acc : Z) : Z :=
  match s with
  | EmptyString => acc
  | String a rest =>
      rfind_from c rest (i + 1) (if Ascii.eqb a c then i else acc)
  end.

Definition rfind (s : string) (c : ascii) : Z := rfind_from c s 0 (-1).

(** [s[i:i+1]] for [0 <= i]: the one-character slice, empty out of range. *)
Definition slice1 (s : string) (i : nat) : string := take 1 (drop i s).

Fixpoint mem (c : ascii) (s : string) : bool :=
  match s with
  | EmptyString => false
  | String a rest => Ascii.eqb a c || mem c rest
  end.

End PyStr.

(* ===================================================================== *)
(** * Python effects: exceptions, the standard streams, collaborators *)
(* ===================================================================== *)

Module Py.

Inductive exn : Type :=
| SystemExit (code : Z)      (* raised by [sys.exit(code)] and [raise SystemExit(code)] *)
| OSError (path : string).   (* raised by [os.listdir] on a path it cannot list *)

Inductive result (A : Type) : Type :=
| Ok (a : A)
| Raise (e : exn).
Arguments Ok {A} a.
Arguments Raise {A} e.

(** The branches of the dispatcher's conditional chain that handle a primary
    command or a framework request. *)
Inductive branch : Type :=
| BTest | BDl | BLoc | BYaml | BBump | BHelp | BUsage | BVersion.

(** Code outside the modelled files that the dispatcher calls. *)
Inductive collaborator : Type :=
| Usage_print_usage                         (* [Usage().print_usage()] *)
| Help_print_help                           (* [Help().print_help()] *)
| Version_print_version                     (* [Version().print_version()] *)
| XList_map_to_items                        (* [XList(...).map_to_items(printy)] *)
| HTTP_get_bin_write_file (url file : string)
| Yaml_load
| Print_of (expr : string).                 (* [print(expr)] of a value the model does not compute *)

Inductive event : Type :=
| Stdout (text : string)     (* text written to the standard output stream *)
| Stderr (text : string)     (* text written to the standard error stream *)
| Call (who : collaborator)
| Enter (b : branch).        (* ghost: control entered a dispatcher branch *)

(** A computation: the events it emitted, in order, and how it ended. *)
Definition M (A : Type) : Type := (list event * result A)%type.

Definition ret {A} (a : A) : M A := ([], Ok a).

Definition bind {A B} (m : M A) (f : A -> M B) : M B :=
  match m with
  | (t, Ok a) => let (t', r) := f a in ((t ++ t')%list, r)
  | (t, Raise e) => (t, Raise e)
  end.

Definition emit (e : event) : M unit := ([e], Ok tt).
Definition raise {A} (e : exn) : M A := ([], Raise e).

Definition trace {A} (m : M A) : list event := fst m.
Definition outcome {A} (m : M A) : result A := snd m.

(** Truth value of an integer in a condition: [if exit:] *)
Definition truthy (z : Z) : bool := negb (Z.eqb z 0).

Definition newline : string := String (ascii_of_nat 10) EmptyString.

(** The builtin [print(text)] *)
Definition print (text : string) : M unit := emit (Stdout (text ++ newline)).

(** [sys.exit(code)] *)
Definition sys_exit {A} (code : Z) : M A := raise (SystemExit code).

(** Exit status of the interpreter when the program's entry point ends the
    way [r] says (for exit codes in the range of a status, 0..255). *)
Definition exit_status {A} (r : result A) : Z :=
  match r with
  | Ok _ => 0
  | Raise (SystemExit code) => code
  | Raise (OSError _) => 1
  end.

End Py.

Declare Scope py_scope.
Delimit Scope py_scope with py.
Notation "m1 ;; m2" := (Py.bind m1 (fun _ => m2))
  (at level 61, right associativity) : py_scope.
Notation "x <- m1 ;; m2" := (Py.bind m1 (fun x => m2))
  (at level 61, m1 at next level, right associativity) : py_scope.

(* ===================================================================== *)
(** * The platform: [os] and [os.path] (POSIX flavour) *)
(* ===================================================================== *)

Module Os.

Inductive file_kind : Type := Regular | Directory | Special.

(** What the process can observe of its environment.  [stat] follows
    symbolic links and fails ([None]) on a path that does not resolve. *)
Record World : Type := mkWorld {
  getcwd : string;
  stat : string -> option file_kind;
  listdir : string -> option (list string);
  expanduser : string -> string
}.

Definition sep : string := "/".
Definition extsep : string := ".".

(** [os.path.exists], [os.path.isfile], [os.path.isdir]: all three go
    through [os.stat]. *)
Definition path_exists (w : World) (p : string) : bool :=
  match stat w p with Some _ => true | None => false end.

Definition path_isfile (w : World) (p : string) : bool :=
  match stat w p with Some Regular => true | _ => false end.

Definition path_isdir (w : World) (p : string) : bool :=
  match stat w p with Some Directory => true | _ => false end.

(** One round of the loop of [os.path.join(a, *p)]. *)
Definition join_step (path b : string) : string :=
  if PyStr.startswith b sep then b
  else if String.eqb path "" || PyStr.endswith path sep then path ++ b
  else path ++ sep ++ b.

Definition path_join (a : string) (p : list string) : string :=
  fold_left join_step p a.

(** The loop of [genericpath._splitext] that skips leading dots of the file
    name: it looks at positions [i, i+1, ...], [n] of them, and reports
    whether one of them holds something else than a dot. *)
Fixpoint has_non_dot (p : string) (i n : nat) : bool :=
  match n with
  | O => false
  | S k =>
      if negb (String.eqb (PyStr.slice1 p i) extsep) then true
      else has_non_dot p (S i) k
  end.

(** [os.path.splitext(p)] *)
Definition path_splitext (p : string) : string * string :=
  let sepIndex := PyStr.rfind p "/"%char in
  let dotIndex := PyStr.rfind p "."%char in
  if (sepIndex <? dotIndex)%Z then
    let filenameIndex := (sepIndex + 1)%Z in
    if has_non_dot p (Z.to_nat filenameIndex)
                     (Z.to_nat (dotIndex - filenameIndex)) then
      (PyStr.take (Z.to_nat dotIndex) p, PyStr.drop (Z.to_nat dotIndex) p)
    else (p, PyStr.take 0 p)
  else (p, PyStr.take 0 p).

End Os.

(* ===================================================================== *)
(** * [Naked/toolshed/system.py] *)
(* ===================================================================== *)

Module System.

Import Py.
Local Open Scope py_scope.

(** ** File and directory paths *)

Definition file_extension (filepath : string) : string * string :=
  Os.path_splitext filepath.

Section InWorld.

Variable w : Os.World.

(** ** The current-directory decorators.

    Each takes the decorated function and gives the wrapper.  The decorated
    functions of this module take no further arguments, so the forwarded
    [*args, **kwargs] of the first two wrappers are empty. *)

Definition currentdir_to_basefile {A} (func : string -> A)
  : string -> A :=
  fun file_name =>
    let current_directory := Os.getcwd w in
    let full_path := Os.path_join current_directory [file_name] in
    func full_path.

(** The wrapper's own first parameter [dir] (default [""]) is dropped. *)
Definition currentdir_firstargument {A} (func : string -> A)
  : string -> A :=
  fun dir =>
    let current_directory := Os.getcwd w in
    func current_directory.

(** The positional arguments [args] go through, the working directory is
    passed as the keyword argument [current_dir]. *)
Definition currentdir_lastargument {Args A} (func : Args -> string -> A)
  : Args -> A :=
  fun args =>
    let the_cwd := Os.getcwd w in
    func args the_cwd.

Definition fullpath : string -> string :=
  currentdir_to_basefile (fun file_name => file_name).

Definition cwd : string -> string :=
  currentdir_firstargument (fun dir => dir).

(** ** File and directory testing *)

Definition file_exists (filepath : string) : bool := Os.path_exists w filepath.
Definition is_file (filepath : string) : bool := Os.path_isfile w filepath.
Definition dir_exists (dirpath : string) : bool := Os.path_exists w dirpath.
Definition is_dir (filepath : string) : bool := Os.path_isdir w filepath.

(** ** File listings *)

(** [os.listdir(dir)], raising on a directory that cannot be listed. *)
Definition os_listdir (dir : string) : result (list string) :=
  match Os.listdir w dir with
  | Some names => Ok names
  | None => Raise (OSError dir)
  end.

Definition list_all_files (dir : string) : result (list string) :=
  match os_listdir dir with
  | Ok names =>
      Ok (filter (fun name => Os.path_isfile w (Os.path_join dir [name])) names)
  | Raise e => Raise e
  end.

Definition list_filter_files (extension_filter dir : string)
  : result (list string) :=
  let extension_filter :=
    if negb (PyStr.startswith extension_filter ".")
    then "." ++ extension_filter else extension_filter in
  match os_listdir dir with
  | Ok names => Ok (filter (fun name => PyStr.endswith name extension_filter) names)
  | Raise e => Raise e
  end.

Definition list_all_files_cwd : string -> result (list string) :=
  currentdir_firstargument (fun dir => list_all_files dir).

Definition list_filter_files_cwd : string -> result (list string) :=
  currentdir_lastargument
    (fun extension_filter current_dir =>
       list_filter_files extension_filter current_dir).

End InWorld.

(** ** Data streams *)

Definition stdout (text : string) : M unit := print text.

Definition stderr (text : string) (exit : Z) : M unit :=
  emit (Stderr text) ;;
  if truthy exit then raise (SystemExit exit) else ret tt.

(** The default of the parameter [exit] of [stderr]. *)
Definition stderr_default_exit : Z := 0%Z.

(** ** Application control *)

Definition exit_with_status (exit : Z) : M unit := raise (SystemExit exit).

End System.

(* ===================================================================== *)
(** * The command line classifier, [Naked.commandline.Command] *)
(* ===================================================================== *)

Module Commandline.

(** An option token is any argument that begins with the option prefix. *)
Definition is_option (tok : string) : bool := PyStr.startswith tok "-".

(** Modelled from the spec: the module [Naked/commandline.py] (class
    [Command]) is not part of the available sources.  The construction
    contract scans the raw arguments left to right and collects command
    tokens; it stops once two have been found or an option token is
    reached. *)
Fixpoint command_tokens (limit : nat) (raw : list string) : list string :=
  match limit, raw with
  | S n, tok :: rest =>
      if is_option tok then [] else tok :: command_tokens n rest
  | _, _ => []
  end.

(** The parsed command line.  [cmd] and [cmd2] are computed once, at
    construction, and stored. *)
Record Command : Type := mkCommand {
  app  : string;        (* program name *)
  argv : list string;   (* raw arguments after the program name *)
  cmd  : string;        (* primary command, possibly empty *)
  cmd2 : string         (* secondary command, possibly empty *)
}.

(** Modelled from the spec: the constructor [Command(app_path, argv)] of the
    missing module.  The first collected token is the primary command, the
    second the secondary command; a missing one is the empty string. *)
Definition new (app_path : string) (raw : list string) : Command :=
  let toks := command_tokens 2 raw in
  {| app := app_path; argv := raw;
     cmd := nth 0 toks ""; cmd2 := nth 1 toks "" |}.

(** Modelled from the spec: [validatesCommandSuite] of the missing module,
    true iff the primary command is non-empty. *)
Definition command_suite_validates (c : Command) : bool :=
  negb (String.eqb (cmd c) "").

(** Position of the first (leftmost) occurrence of [tok], exact match. *)
Fixpoint find_index (tok : string) (raw : list string) : option nat :=
  match raw with
  | [] => None
  | a :: rest =>
      if String.eqb a tok then Some 0
      else option_map S (find_index tok rest)
  end.

(** Modelled from the spec: [positionalArgument(afterToken)] of the missing
    module: the element right after the first occurrence of [afterToken],
    absent when there is none. *)
Definition positionalArgument (c : Command) (afterToken : string)
  : option string :=
  match find_index afterToken (argv c) with
  | Some i => nth_error (argv c) (S i)
  | None => None
  end.

(** Modelled from the spec: [optionValue(flag)] of the missing module, built
    on [positionalArgument]. *)
Definition optionValue (c : Command) (flag : string) : option string :=
  positionalArgument c flag.

(** Modelled from the spec: [hasOption(flag, requiresArgument)] of the
    missing module.  The matched occurrence is the leftmost one, as for
    [optionValue]. *)
Definition hasOption (c : Command) (flag : string) (requiresArgument : bool)
  : bool :=
  match find_index flag (argv c) with
  | Some i => if requiresArgument then Nat.ltb (S i) (List.length (argv c)) else true
  | None => false
  end.

(** Modelled from the spec: the recognised literals of the help, usage and
    version requests (the spec lists [-h]/[--help], [--usage], [--version]
    and a reserved command word for each). *)
Definition help_flags : list string := ["-h"; "--help"].
Definition usage_flags : list string := ["--usage"].
Definition version_flags : list string := ["--version"].

Definition mentions (flags : list string) (raw : list string) : bool :=
  existsb (fun a => existsb (String.eqb a) flags) raw.

(** Modelled from the spec: [isHelpRequested], [isUsageRequested] and
    [isVersionRequested] of the missing module. *)
Definition help (c : Command) : bool :=
  mentions help_flags (argv c) || String.eqb (cmd c) "help".

Definition usage (c : Command) : bool :=
  mentions usage_flags (argv c) || String.eqb (cmd c) "usage".

Definition version (c : Command) : bool :=
  mentions version_flags (argv c) || String.eqb (cmd c) "version".

End Commandline.


(* ===================================================================== *)
(** * [Naked/app.py]: the dispatcher *)
(* ===================================================================== *)

Module App.

Import Py.
Local Open Scope py_scope.

(** What [main] asks of the command line object [c]: its constructor, the
    attributes [c.cmd] and [c.cmd2] and four boolean queries.  The class
    itself lives in [Naked/commandline.py]; [main] is written against this
    interface and the results about it hold for every implementation. *)
Class CommandAPI (C : Type) : Type := {
  Command : string -> list string -> C;
  cmd : C -> string;
  cmd2 : C -> string;
  command_suite_validates : C -> bool;
  help : C -> bool;
  usage : C -> bool;
  version : C -> bool
}.

Definition failure_message : string :=
  "Could not complete the command that you entered.  Please try again.".

Definition settings_path (w : Os.World) : string :=
  Os.expanduser w (Os.path_join "~" ["naked"; "universal_settings.yaml"]).

Section Dispatcher.

Context {C : Type} {api : CommandAPI C}.

(** [main()], with [sys.argv[0]] and [sys.argv[1:]] as arguments. *)
Definition main (w : Os.World) (argv0 : string) (args : list string)
  : M unit :=
  let c := Command argv0 args in
  (if negb (command_suite_validates c) then
     emit (Call Usage_print_usage) ;;
     sys_exit 1
   else ret tt) ;;
  if String.eqb (cmd c) "test" then
    emit (Enter BTest) ;;
    emit (Call XList_map_to_items) ;;
    emit (Call (Print_of "xd")) ;;
    emit (Call (Print_of "xd.test"))
  else if String.eqb (cmd c) "dl" then
    emit (Enter BDl) ;;
    emit (Call (HTTP_get_bin_write_file
                  "https://github.com/chrissimpkins/six-four/tarball/master"
                  "test.tgz"))
  else if String.eqb (cmd c) "loc" then
    emit (Enter BLoc) ;;
    print (System.cwd w "") ;;
    print (settings_path w)
  else if String.eqb (cmd c) "yaml" then
    emit (Enter BYaml) ;;
    emit (Call Yaml_load) ;;
    emit (Call (Print_of "theyam['developer']")) ;;
    emit (Call (Print_of "theyam['email']")) ;;
    emit (Call (Print_of "theyam['default_license']")) ;;
    emit (Call (Print_of "theyam['base_repository']"))
  else if String.eqb (cmd c) "bump" then
    emit (Enter BBump) ;;
    if String.eqb (cmd2 c) "patch" then ret tt
    else if String.eqb (cmd2 c) "minor" then ret tt
    else if String.eqb (cmd2 c) "major" then ret tt
    else ret tt
  else if help c then
    emit (Enter BHelp) ;;
    emit (Call Help_print_help)
  else if usage c then
    emit (Enter BUsage) ;;
    emit (Call Usage_print_usage)
  else if version c then
    emit (Enter BVersion) ;;
    emit (Call Version_print_version)
  else
    print failure_message ;;
    sys_exit 1.

End Dispatcher.

(** The primary command strings the dispatcher compares [c.cmd] with. *)
Definition recognized_commands : list string :=
  ["test"; "dl"; "loc"; "yaml"; "bump"].

(** The events that show a handler branch was reached. *)
Definition entered (b : branch) (t : list event) : Prop := In (Enter b) t.

End App.

(** The modelled classifier implements the interface [main] is written
    against. *)
#[export] Instance Commandline_api : App.CommandAPI Commandline.Command := {
  Command := Commandline.new;
  cmd := Commandline.cmd;
  cmd2 := Commandline.cmd2;
  command_suite_validates := Commandline.command_suite_validates;
  help := Commandline.help;
  usage := Commandline.usage;
  version := Commandline.version
}.

(** A small world for concrete runs: the working directory [/home/u/proj]
    holds the regular files [a.py] and [notes.txt] and the directory [src]. *)
Definition demo_world : Os.World :=
  {| Os.getcwd := "/home/u/proj";
     Os.stat := fun p =>
       if String.eqb p "/home/u/proj" then Some Os.Directory
       else if String.eqb p "/home/u/proj/src" then Some Os.Directory
       else if String.eqb p "/home/u/proj/a.py" then Some Os.Regular
       else if String.eqb p "/home/u/proj/notes.txt" then Some Os.Regular
       else None;
     Os.listdir := fun p =>
       if String.eqb p "/home/u/proj" then Some ["a.py"; "src"; "notes.txt"]
       else if String.eqb p "/home/u/proj/src" then Some []
       else None;
     Os.expanduser := fun p =>
       if PyStr.startswith p "~/" then "/home/u" ++ PyStr.drop 1 p else p |}.

(* ===================================================================== *)
(** * More of [os.path] and of [Naked/toolshed/system.py] *)
(* ===================================================================== *)

Module Posix.

(** [c * n]: the character repeated [n] times *)
Fixpoint repeat_char (c : ascii) (n : nat) : string :=
  match n with
  | O => EmptyString
  | S k => String c (repeat_char c k)
  end.

(** [s.rstrip(c)] for a one-character set: trailing [c]s removed *)
Fixpoint rstrip (c : ascii) (s : string) : string :=
  match s with
  | EmptyString => EmptyString
  | String a rest =>
      match rstrip c rest with
      | EmptyString => if Ascii.eqb a c then EmptyString else String a EmptyString
      | r => String a r
      end
  end.

(** [os.path.basename(p)] *)
Definition basename (p : string) : string :=
  let i := (PyStr.rfind p "/"%char + 1)%Z in
  PyStr.drop (Z.to_nat i) p.

(** [os.path.dirname(p)] *)
Definition dirname (p : string) : string :=
  let i := (PyStr.rfind p "/"%char + 1)%Z in
  let head := PyStr.take (Z.to_nat i) p in
  if negb (String.eqb head "")
     && negb (String.eqb head (repeat_char "/"%char (String.length head)))
  then rstrip "/"%char head
  else head.

End Posix.

Module Toolshed.

Import Py.

Definition filename (filepath : string) : string := Posix.basename filepath.

Definition directory (filepath : string) : string := Posix.dirname filepath.

(** [make_path] on a non-empty argument tuple [path_list]: its first
    element and the others.  (With no argument at all [os.path.join] is called
    without its required parameter, which is a [TypeError].) *)
Definition make_path (a : string) (path_list : list string) : string :=
  Os.path_join a path_list.

Section Listing.

Variable w : Os.World.

(** The result of [glob.glob] for each pattern, taken as given. *)
Variable glob : string -> list string.

(** The loop of the [full_path] branch of [list_match_files]: [acc] is
    [filenames_fullpath] so far. *)
Fixpoint fullpath_loop (cwd : string) (filenames acc : list string)
  : list string :=
  match filenames with
  | [] => acc
  | name :: rest =>
      let name := Os.path_join cwd [name] in
      fullpath_loop cwd rest (acc ++ [name])%list
  end.

Definition list_match_files (match_pattern : string) (full_path : bool)
  : list string :=
  let filenames := glob match_pattern in
  if full_path then
    let filenames_fullpath := [] in
    let cwd := Os.getcwd w in
    fullpath_loop cwd filenames filenames_fullpath
  else filenames.

End Listing.

(** The default of the parameter [exit] of [exit_with_status]. *)
Definition exit_with_status_default : Z := 1%Z.

End Toolshed.

(* ===================================================================== *)
(** * Results about the classifier *)
(* ===================================================================== *)

Section ClassifierFacts.

Import Commandline.

Lemma find_index_None (tok : string) (raw : list string) :
  find_index tok raw = None <-> ~ In tok raw.
Proof.
  induction raw as [|a rest IH]; simpl.
  - tauto.
  - destruct (String.eqb_spec a tok) as [Heq|Hne].
    + split; [discriminate | intros H; exfalso; apply H; now left].
    + destruct (find_index tok rest) as [i|]; simpl.
      * split; [discriminate|].
        intros H. exfalso. apply H. right.
        destruct (in_dec string_dec tok rest) as [Hin|Hout]; [exact Hin|].
        apply IH in Hout. discriminate.
      * split; [|reflexivity].
        intros _ [H|H]; [congruence|]. now apply IH.
Qed.

(** [find_index] gives the length of the longest prefix free of [tok]. *)
Lemma find_index_Some (tok : string) (raw : list string) (i : nat) :
  find_index tok raw = Some i <->
  exists pre post,
    raw = (pre ++ tok :: post)%list /\ ~ In tok pre /\ List.length pre = i.
Proof.
  revert i. induction raw as [|a rest IH]; intros i; simpl.
  - split; [discriminate|].
    intros (pre & post & H & _). destruct pre; discriminate.
  - destruct (String.eqb_spec a tok) as [Heq|Hne].
    + subst a. split.
      * intros [= <-]. exists [], rest. simpl. tauto.
      * intros (pre & post & H & Hout & Hlen).
        destruct pre as [|b pre]; simpl in *; [now subst|].
        injection H as -> _. exfalso. apply Hout. now left.
    + split.
      * destruct (find_index tok rest) as [j|] eqn:E; simpl; [|discriminate].
        intros [= <-].
        destruct (proj1 (IH j) eq_refl) as (pre & post & -> & Hout & Hlen).
        exists (a :: pre), post. simpl. repeat split; [|congruence].
        intros [H|H]; [congruence | tauto].
      * intros (pre & post & H & Hout & Hlen).
        destruct pre as [|b pre]; simpl in *.
        -- injection H as H _. congruence.
        -- injection H as -> ->.
           assert (Hj : find_index tok (pre ++ tok :: post)%list
                        = Some (List.length pre)).
           { apply IH. exists pre, post. tauto. }
           rewrite Hj. simpl. now subst i.
Qed.

Lemma nth_error_after (pre post : list string) (tok : string) (k : nat) :
  nth_error (pre ++ tok :: post)%list (S (List.length pre + k))
  = nth_error post k.
Proof.
  induction pre as [|a pre IH]; simpl; [reflexivity | exact IH].
Qed.

Lemma positionalArgument_Some (c : Command) (tok v : string) :
  positionalArgument c tok = Some v <->
  exists pre post,
    argv c = (pre ++ tok :: v :: post)%list /\ ~ In tok pre.
Proof.
  unfold positionalArgument. split.
  - destruct (find_index tok (argv c)) as [i|] eqn:E; [|discriminate].
    apply find_index_Some in E. destruct E as (pre & post & Hraw & Hout & <-).
    rewrite Hraw, <- (Nat.add_0_r (List.length pre)), nth_error_after.
    destruct post as [|v' post]; simpl; [discriminate|].
    intros [= ->]. exists pre, post. tauto.
  - intros (pre & post & Hraw & Hout).
    assert (E : find_index tok (argv c) = Some (List.length pre)).
    { apply find_index_Some. exists pre, (v :: post). tauto. }
    rewrite E, Hraw, <- (Nat.add_0_r (List.length pre)), nth_error_after.
    reflexivity.
Qed.

Lemma positionalArgument_None (c : Command) (tok : string) :
  positionalArgument c tok = None <->
  (~ In tok (argv c)
   \/ exists pre, argv c = (pre ++ [tok])%list /\ ~ In tok pre).
Proof.
  unfold positionalArgument. split.
  - destruct (find_index tok (argv c)) as [i|] eqn:E.
    + apply find_index_Some in E.
      destruct E as (pre & post & Hraw & Hout & <-).
      rewrite Hraw, <- (Nat.add_0_r (List.length pre)), nth_error_after.
      destruct post as [|v post]; simpl; [|discriminate].
      intros _. right. exists pre. tauto.
    + intros _. left. now apply find_index_None.
  - intros [Hout | (pre & Hraw & Hout)].
    + apply find_index_None in Hout. now rewrite Hout.
    + assert (E : find_index tok (argv c) = Some (List.length pre)).
      { apply find_index_Some. exists pre, []. tauto. }
      rewrite E, Hraw, <- (Nat.add_0_r (List.length pre)), nth_error_after.
      reflexivity.
Qed.

End ClassifierFacts.

Section ClassifierClaims.

Import Commandline.

(** A validated command line built by the constructor starts with a
    non-empty token that is not an option. *)
Lemma new_validates_iff (app_path : string) (raw : list string) :
  command_suite_validates (new app_path raw) = true <->
  exists tok rest, raw = tok :: rest /\ tok <> "" /\ is_option tok = false.
Proof.
  unfold command_suite_validates, new; simpl.
  destruct raw as [|tok rest]; simpl.
  - split; [discriminate | intros (? & ? & ? & _); discriminate].
  - destruct (is_option tok) eqn:E; simpl.
    + split; [discriminate|]. intros (t & r & [= <- <-] & _ & H). congruence.
    + destruct (String.eqb_spec tok "") as [->|Hne]; simpl.
      * split; [discriminate|]. intros (t & r & [= <- <-] & H & _). congruence.
      * split; [|reflexivity]. intros _. exists tok, rest. tauto.
Qed.

(** The classifier reports a help, usage or version request whenever one
    of the corresponding literals is among the raw arguments, whatever the
    primary command is. *)
Lemma universal_flags_recognized (app_path : string) (raw : list string) :
  (In "-h" raw \/ In "--help" raw -> help (new app_path raw) = true)
  /\ (In "--usage" raw -> usage (new app_path raw) = true)
  /\ (In "--version" raw -> version (new app_path raw) = true).
Proof.
  assert (Hm : forall flags lit,
             In lit flags -> In lit raw -> mentions flags raw = true).
  { intros flags lit Hf Hr. unfold mentions.
    apply existsb_exists. exists lit. split; [exact Hr|].
    apply existsb_exists. exists lit. split; [exact Hf|].
    apply String.eqb_refl. }
  unfold help, usage, version, new; simpl. repeat split.
  - intros [H|H]; apply orb_true_iff; left.
    + apply (Hm help_flags "-h"); [simpl; tauto | exact H].
    + apply (Hm help_flags "--help"); [simpl; tauto | exact H].
  - intros H. apply orb_true_iff. left.
    apply (Hm usage_flags "--usage"); [simpl; tauto | exact H].
  - intros H. apply orb_true_iff. left.
    apply (Hm version_flags "--version"); [simpl; tauto | exact H].
Qed.

(** C1.  [command_suite_validates] is true exactly when the primary command
    is not the empty string; on an empty argument vector it is false and
    the primary and the secondary command are both the empty string. *)
Theorem command_suite_validates_iff_cmd_nonempty :
  (forall c : Command, command_suite_validates c = true <-> cmd c <> "")
  /\ (forall app_path : string,
        command_suite_validates (new app_path []) = false
        /\ cmd (new app_path []) = ""
        /\ cmd2 (new app_path []) = "").
Proof.
  split.
  - intros c. unfold command_suite_validates.
    destruct (String.eqb_spec (cmd c) "") as [E|E]; simpl.
    + split; [discriminate | congruence].
    + split; [intros _; exact E | reflexivity].
  - intros app_path. repeat split.
Qed.

(** C3.  [optionValue] gives the element right after the leftmost
    occurrence of the flag when there is one, and is absent exactly when
    the flag does not occur or its leftmost occurrence ends the raw
    arguments.  It is a total function into [option string]: absence is a
    value, not an error. *)
Theorem optionValue_follows_first_occurrence :
  forall (c : Command) (flag : string),
    (forall v : string,
        optionValue c flag = Some v <->
        exists pre post,
          argv c = (pre ++ flag :: v :: post)%list /\ ~ In flag pre)
    /\ (optionValue c flag = None <->
        (~ In flag (argv c)
         \/ exists pre, argv c = (pre ++ [flag])%list /\ ~ In flag pre)).
Proof.
  intros c flag. unfold optionValue. split.
  - intros v. apply positionalArgument_Some.
  - apply positionalArgument_None.
Qed.

(** C4.  Without a required argument [hasOption] is true exactly when the
    flag is an element of the raw arguments (string equality, no folding,
    no abbreviation).  With a required argument it is true exactly when the
    leftmost occurrence is followed by an element, so it is false when that
    occurrence is the last element. *)
Theorem hasOption_exact_match :
  forall (c : Command) (flag : string),
    (hasOption c flag false = true <-> In flag (argv c))
    /\ (hasOption c flag true = true <->
        exists pre v post,
          argv c = (pre ++ flag :: v :: post)%list /\ ~ In flag pre)
    /\ (forall pre,
          argv c = (pre ++ [flag])%list -> ~ In flag pre ->
          hasOption c flag true = false)
    /\ (hasOption c flag true = true -> hasOption c flag false = true).
Proof.
  intros c flag. unfold hasOption.
  destruct (find_index flag (argv c)) as [i|] eqn:E.
  - apply find_index_Some in E.
    destruct E as (pre & post & Hraw & Hout & <-).
    assert (Huniq : forall pre' post',
               argv c = (pre' ++ flag :: post')%list -> ~ In flag pre' ->
               post' = post).
    { intros pre' post' H' Hout'.
      assert (E1 : find_index flag (argv c) = Some (List.length pre))
        by (apply find_index_Some; exists pre, post; tauto).
      assert (E2 : find_index flag (argv c) = Some (List.length pre'))
        by (apply find_index_Some; exists pre', post'; tauto).
      rewrite E1 in E2. injection E2 as Hlen.
      rewrite Hraw in H'.
      assert (Hd : skipn (List.length pre) (pre ++ flag :: post)
                   = skipn (List.length pre) (pre' ++ flag :: post'))
        by (now rewrite H').
      rewrite Hlen in Hd at 2.
      rewrite !skipn_app, !skipn_all, !Nat.sub_diag in Hd. simpl in Hd.
      congruence. }
    rewrite Hraw, length_app. simpl.
    repeat split.
    + intros _. apply in_or_app. right. now left.
    + destruct post as [|v post].
      * intros H. apply Nat.ltb_lt in H. simpl in H. lia.
      * intros _. exists pre, v, post. tauto.
    + intros (pre' & v & post' & H' & Hout').
      rewrite Hraw in *.
      rewrite <- (Huniq pre' (v :: post') H' Hout').
      apply Nat.ltb_lt. simpl. lia.
    + intros pre' H' Hout'. rewrite Hraw in *.
      rewrite <- (Huniq pre' [] H' Hout').
      apply Nat.ltb_ge. simpl. lia.
  - apply find_index_None in E.
    repeat split; try discriminate.
    + intros H. contradiction.
    + intros (pre & v & post & H & _). exfalso. apply E. rewrite H.
      apply in_or_app. right. now left.
Qed.

End ClassifierClaims.

(* ===================================================================== *)
(** * Results about strings and [os.path.splitext] *)
(* ===================================================================== *)

Section StringFacts.

Import PyStr.

Lemma append_empty_r (s : string) : s ++ "" = s.
Proof. induction s as [|a s IH]; simpl; [reflexivity | now rewrite IH]. Qed.

Lemma take_drop (n : nat) (s : string) : take n s ++ drop n s = s.
Proof.
  revert s. induction n as [|n IH]; intros [|a s]; simpl; try reflexivity.
  now rewrite IH.
Qed.

Lemma drop_drop (m n : nat) (s : string) : drop n (drop m s) = drop (m + n) s.
Proof.
  revert s. induction m as [|m IH]; intros s; simpl; [reflexivity|].
  destruct s as [|a s]; [now destruct n | apply IH].
Qed.

Lemma mem_drop (c : ascii) (n : nat) (s : string) :
  mem c s = false -> mem c (drop n s) = false.
Proof.
  revert s. induction n as [|n IH]; intros [|a s]; simpl; auto.
  intros H. apply orb_false_iff in H. now apply IH.
Qed.

(** What [rfind_from] returns: the accumulator when the needle is absent,
    and otherwise the position of an occurrence after which there is no
    further one. *)
Lemma rfind_from_spec (c : ascii) (s : string) (i acc : Z) :
  (mem c s = false /\ rfind_from c s i acc = acc)
  \/ (exists (n : nat) (rest : string),
         rfind_from c s i acc = (i + Z.of_nat n)%Z
         /\ drop n s = String c rest /\ mem c rest = false).
Proof.
  revert i acc. induction s as [|a s IH]; intros i acc; simpl.
  - left. split; reflexivity.
  - destruct (IH (i + 1)%Z (if Ascii.eqb a c then i else acc))
      as [[Hno Hr] | (n & rest & Hr & Hd & Hno)].
    + destruct (Ascii.eqb_spec a c) as [->|Hne].
      * right. exists 0, s. simpl. rewrite Hr, Z.add_0_r. tauto.
      * left. simpl. tauto.
    + right. exists (S n), rest. simpl.
      rewrite Hr. split; [lia | tauto].
Qed.

Lemma rfind_spec (s : string) (c : ascii) :
  (mem c s = false /\ rfind s c = (-1)%Z)
  \/ (exists (n : nat) (rest : string),
         rfind s c = Z.of_nat n
         /\ drop n s = String c rest /\ mem c rest = false).
Proof.
  unfold rfind.
  destruct (rfind_from_spec c s 0 (-1)) as [H | (n & rest & H)];
    [left; exact H | right; exists n, rest; exact H].
Qed.

(** The two components of [splitext] concatenate to the path; the second
    one is empty, or a dot followed by characters that hold neither a dot
    nor a separator. *)
Lemma path_splitext_spec (p : string) :
  let (root, ext) := Os.path_splitext p in
  root ++ ext = p
  /\ (ext = ""
      \/ exists rest, ext = String "."%char rest
                      /\ mem "."%char rest = false
                      /\ mem "/"%char rest = false).
Proof.
  unfold Os.path_splitext.
  destruct (Z.ltb_spec (rfind p "/"%char) (rfind p "."%char)) as [Hlt|Hge];
    [|split; [apply append_empty_r | now left]].
  destruct (Os.has_non_dot _ _ _);
    [|split; [apply append_empty_r | now left]].
  split; [apply take_drop|]. right.
  destruct (rfind_spec p "."%char) as [[_ Hd] | (n & rest & Hd & Hdrop & Hno)].
  - exfalso. rewrite Hd in Hlt.
    destruct (rfind_spec p "/"%char) as [[_ Hs] | (m & ? & Hs & _)]; lia.
  - rewrite Hd, Nat2Z.id, Hdrop. exists rest. repeat split; [exact Hno|].
    destruct (rfind_spec p "/"%char)
      as [[Hnone _] | (m & rest' & Hs & Hdrop' & Hno')].
    + apply (mem_drop _ n) in Hnone. rewrite Hdrop in Hnone. exact Hnone.
    + rewrite Hs, Hd in Hlt.
      assert (Hn : n = m + S (n - m - 1)) by lia.
      rewrite Hn, <- drop_drop, Hdrop' in Hdrop. simpl in Hdrop.
      apply (mem_drop _ (n - m - 1)) in Hno'. rewrite Hdrop in Hno'.
      exact Hno'.
Qed.

End StringFacts.

(* ===================================================================== *)
(** * Results about [Naked/toolshed/system.py] *)
(* ===================================================================== *)

Section SystemClaims.

Import Py.

(** C7.  The decorated functions agree with the plain helpers applied to
    the working directory: [list_all_files_cwd] (whatever is passed for its
    dropped parameter, the default included) lists the working directory,
    [list_filter_files_cwd] filters the working directory, [cwd] returns
    the working directory and [fullpath] joins the working directory with
    the name. *)
Theorem cwd_wrappers_supply_working_directory :
  forall w : Os.World,
    (forall dir : string,
        System.list_all_files_cwd w dir
        = System.list_all_files w (Os.getcwd w))
    /\ (forall extension_filter : string,
          System.list_filter_files_cwd w extension_filter
          = System.list_filter_files w extension_filter (Os.getcwd w))
    /\ (forall dir : string, System.cwd w dir = Os.getcwd w)
    /\ (forall file_name : string,
          System.fullpath w file_name
          = Os.path_join (Os.getcwd w) [file_name]).
Proof.
  intros w.
  unfold System.list_all_files_cwd, System.list_filter_files_cwd,
    System.cwd, System.fullpath, System.currentdir_firstargument,
    System.currentdir_lastargument, System.currentdir_to_basefile.
  repeat split.
Qed.

(** The wrappers on a concrete directory. *)
Example cwd_wrappers_run :
  System.list_all_files_cwd demo_world "" = Ok ["a.py"; "notes.txt"]
  /\ System.list_filter_files_cwd demo_world "py" = Ok ["a.py"]
  /\ System.cwd demo_world "" = "/home/u/proj"
  /\ System.fullpath demo_world "a.py" = "/home/u/proj/a.py".
Proof. repeat split. Qed.

Example file_extension_runs :
  map System.file_extension
      ["a/b.c/d"; ".bashrc"; "x.tar.gz"; "a/..x"; "..a.b"; "foo."]
  = [("a/b.c/d", ""); (".bashrc", ""); ("x.tar", ".gz"); ("a/..x", "");
     ("..a", ".b"); ("foo", ".")].
Proof. reflexivity. Qed.

(** C9.  [dir_exists] is [file_exists]: both are true exactly when the path
    resolves to anything at all.  On a regular file [dir_exists] is true
    while [is_dir] is false; [is_dir] is true exactly on directories. *)
Theorem dir_exists_is_path_existence :
  forall (w : Os.World) (p : string),
    System.dir_exists w p = System.file_exists w p
    /\ (System.dir_exists w p = true <-> Os.stat w p <> None)
    /\ (System.is_file w p = true ->
        System.dir_exists w p = true /\ System.is_dir w p = false)
    /\ (System.is_dir w p = true <-> Os.stat w p = Some Os.Directory).
Proof.
  intros w p.
  unfold System.dir_exists, System.file_exists, System.is_file,
    System.is_dir, Os.path_exists, Os.path_isfile, Os.path_isdir.
  destruct (Os.stat w p) as [[| |]|]; repeat split;
    congruence || discriminate || auto.
Qed.

(** C10.  [stderr] writes the text to the standard error stream, and
    nothing else; it then raises [SystemExit] with the given code exactly
    when the code is not zero, and returns exactly when it is zero, which
    is the default. *)
Theorem stderr_writes_then_exits_iff_nonzero :
  forall (text : string) (exit : Z),
    trace (System.stderr text exit) = [Stderr text]
    /\ (outcome (System.stderr text exit) = Raise (SystemExit exit)
        <-> exit <> 0%Z)
    /\ (outcome (System.stderr text exit) = Ok tt <-> exit = 0%Z)
    /\ System.stderr text System.stderr_default_exit = ([Stderr text], Ok tt).
Proof.
  intros text exit. unfold System.stderr, truthy.
  destruct (Z.eqb_spec exit 0) as [->|Hne]; simpl.
  - repeat split; intros; congruence.
  - repeat split; intros; congruence.
Qed.

End SystemClaims.

(* ===================================================================== *)
(** * Results about the dispatcher *)
(* ===================================================================== *)

Section DispatcherClaims.

Import Py.

(** A primary command outside the recognised ones fails each of the five
    comparisons of the chain. *)
Lemma unrecognized_comparisons (s : string) :
  ~ In s App.recognized_commands ->
  String.eqb s "test" = false /\ String.eqb s "dl" = false
  /\ String.eqb s "loc" = false /\ String.eqb s "yaml" = false
  /\ String.eqb s "bump" = false.
Proof.
  unfold App.recognized_commands. simpl. intros H.
  repeat split; apply String.eqb_neq; intros ->; apply H; tauto.
Qed.

Ltac skip_commands H :=
  destruct (unrecognized_comparisons _ H) as (-> & -> & -> & -> & ->).

(** With one of the recognised primary commands none of the three printers
    is called, whatever the classifier answers to the three queries. *)
Lemma recognized_command_calls_no_printer
      (C : Type) (api : App.CommandAPI C)
      (w : Os.World) (argv0 : string) (args : list string) :
  App.command_suite_validates (App.Command argv0 args) = true ->
  In (App.cmd (App.Command argv0 args)) App.recognized_commands ->
  ~ In (Call Help_print_help) (trace (App.main w argv0 args))
  /\ ~ In (Call Usage_print_usage) (trace (App.main w argv0 args))
  /\ ~ In (Call Version_print_version) (trace (App.main w argv0 args)).
Proof.
  intros Hv Hc. unfold App.main. rewrite Hv.
  unfold App.recognized_commands in Hc. simpl in Hc.
  destruct Hc as [Hc|[Hc|[Hc|[Hc|[Hc|[]]]]]]; rewrite <- Hc; simpl;
    repeat match goal with
           | |- context [if ?b then _ else _] => destruct b
           end;
    simpl; repeat split; intros H; intuition discriminate.
Qed.

(** C5.  When validation of the command suite fails, [main] calls the usage
    printer and raises [SystemExit(1)], so the process ends with status 1;
    no handler branch is entered. *)
Theorem main_validation_failure_usage_exit_1 :
  forall (C : Type) (api : App.CommandAPI C)
         (w : Os.World) (argv0 : string) (args : list string),
    App.command_suite_validates (App.Command argv0 args) = false ->
    App.main w argv0 args = ([Call Usage_print_usage], Raise (SystemExit 1))
    /\ exit_status (outcome (App.main w argv0 args)) = 1%Z
    /\ forall b : branch, ~ App.entered b (trace (App.main w argv0 args)).
Proof.
  intros C api w argv0 args Hv. unfold App.main, App.entered.
  rewrite Hv. simpl. repeat split.
  intros b [H|[]]. discriminate.
Qed.

(** C2, as amended.  When validation succeeds and the primary command is
    none of the recognised ones, [main] calls the printer of the first
    request that the classifier reports, in the order help, usage, version,
    calls nothing else and returns. *)
Theorem main_framework_requests_after_commands :
  forall (C : Type) (api : App.CommandAPI C)
         (w : Os.World) (argv0 : string) (args : list string),
    App.command_suite_validates (App.Command argv0 args) = true ->
    ~ In (App.cmd (App.Command argv0 args)) App.recognized_commands ->
    (App.help (App.Command argv0 args) = true ->
     App.main w argv0 args = ([Enter BHelp; Call Help_print_help], Ok tt))
    /\ (App.help (App.Command argv0 args) = false ->
        App.usage (App.Command argv0 args) = true ->
        App.main w argv0 args
        = ([Enter BUsage; Call Usage_print_usage], Ok tt))
    /\ (App.help (App.Command argv0 args) = false ->
        App.usage (App.Command argv0 args) = false ->
        App.version (App.Command argv0 args) = true ->
        App.main w argv0 args
        = ([Enter BVersion; Call Version_print_version], Ok tt)).
Proof.
  intros C api w argv0 args Hv Hc. unfold App.main.
  rewrite Hv. skip_commands Hc.
  repeat split.
  - intros ->. reflexivity.
  - intros -> ->. reflexivity.
  - intros -> -> ->. reflexivity.
Qed.

(** C6, as amended.  When validation succeeds, the primary command is none
    of the recognised ones and the classifier reports neither a help, a
    usage nor a version request, [main] prints the failure message and
    raises [SystemExit(1)]; no handler branch is entered. *)
Theorem main_unrecognized_command_default_branch :
  forall (C : Type) (api : App.CommandAPI C)
         (w : Os.World) (argv0 : string) (args : list string),
    App.command_suite_validates (App.Command argv0 args) = true ->
    ~ In (App.cmd (App.Command argv0 args)) App.recognized_commands ->
    App.help (App.Command argv0 args) = false ->
    App.usage (App.Command argv0 args) = false ->
    App.version (App.Command argv0 args) = false ->
    App.main w argv0 args
    = ([Stdout (App.failure_message ++ newline)], Raise (SystemExit 1))
    /\ exit_status (outcome (App.main w argv0 args)) = 1%Z
    /\ forall b : branch, ~ App.entered b (trace (App.main w argv0 args)).
Proof.
  intros C api w argv0 args Hv Hc Hh Hu Hver. unfold App.main, App.entered.
  rewrite Hv, Hh, Hu, Hver. skip_commands Hc.
  simpl. repeat split.
  intros b [H|[]]. discriminate.
Qed.

End DispatcherClaims.

(* ===================================================================== *)
(** * Concrete runs *)
(* ===================================================================== *)

Section Runs.

Import Py.

(** The scenarios of the specification, on the modelled classifier. *)
Example scenario_build_release :
  Commandline.cmd (Commandline.new "myapp" ["build"; "release"; "-v"]) = "build"
  /\ Commandline.cmd2 (Commandline.new "myapp" ["build"; "release"; "-v"])
     = "release"
  /\ Commandline.hasOption
       (Commandline.new "myapp" ["build"; "release"; "-v"]) "-v" false = true.
Proof. repeat split. Qed.

Example scenario_no_arguments :
  Commandline.cmd (Commandline.new "myapp" []) = ""
  /\ Commandline.command_suite_validates (Commandline.new "myapp" []) = false.
Proof. repeat split. Qed.

Example scenario_help_flag_only :
  Commandline.help (Commandline.new "myapp" ["-h"]) = true
  /\ Commandline.cmd (Commandline.new "myapp" ["-h"]) = "".
Proof. repeat split. Qed.

Example scenario_option_value :
  Commandline.cmd (Commandline.new "myapp" ["convert"; "--out"; "result.txt"])
  = "convert"
  /\ Commandline.optionValue
       (Commandline.new "myapp" ["convert"; "--out"; "result.txt"]) "--out"
     = Some "result.txt".
Proof. repeat split. Qed.

(** An option between the two command tokens ends the collection. *)
Example option_between_commands :
  Commandline.cmd2 (Commandline.new "myapp" ["cmd"; "-x"; "sub"]) = "".
Proof. reflexivity. Qed.

Lemma command_suite_validates_witness :
  Commandline.cmd (Commandline.new "myapp" ["build"]) <> ""
  /\ Commandline.command_suite_validates (Commandline.new "myapp" ["build"])
     = true.
Proof.
  split; [discriminate|].
  apply (proj1 command_suite_validates_iff_cmd_nonempty
               (Commandline.new "myapp" ["build"])).
  discriminate.
Defined.

Lemma optionValue_witness :
  (exists pre post,
      Commandline.argv
        (Commandline.new "myapp" ["convert"; "--out"; "result.txt"; "--out"])
      = (pre ++ "--out" :: "result.txt" :: post)%list
      /\ ~ In "--out" pre)
  /\ Commandline.optionValue
       (Commandline.new "myapp" ["convert"; "--out"; "result.txt"; "--out"])
       "--out"
     = Some "result.txt".
Proof.
  assert (H : exists pre post,
             Commandline.argv
               (Commandline.new "myapp"
                                ["convert"; "--out"; "result.txt"; "--out"])
             = (pre ++ "--out" :: "result.txt" :: post)%list
             /\ ~ In "--out" pre).
  { exists ["convert"], ["--out"]. split; [reflexivity|].
    simpl. intros [E|[]]. discriminate. }
  split; [exact H|].
  apply (proj2 (proj1 (optionValue_follows_first_occurrence
                         (Commandline.new "myapp"
                            ["convert"; "--out"; "result.txt"; "--out"])
                         "--out") "result.txt")).
  exact H.
Defined.

Lemma hasOption_witness :
  In "-o" (Commandline.argv (Commandline.new "myapp" ["build"; "-o"]))
  /\ Commandline.hasOption (Commandline.new "myapp" ["build"; "-o"]) "-o" false
     = true
  /\ Commandline.hasOption (Commandline.new "myapp" ["build"; "-o"]) "-o" true
     = false.
Proof.
  assert (Hin : In "-o" (Commandline.argv
                           (Commandline.new "myapp" ["build"; "-o"])))
    by (simpl; tauto).
  pose proof (hasOption_exact_match
                (Commandline.new "myapp" ["build"; "-o"]) "-o")
    as (Hfalse & _ & Hlast & _).
  split; [exact Hin|]. split.
  - apply Hfalse. exact Hin.
  - apply (Hlast ["build"]); [reflexivity|].
    simpl. intros [E|[]]. discriminate.
Defined.

Lemma dir_exists_witness :
  System.is_file demo_world "/home/u/proj/a.py" = true
  /\ System.dir_exists demo_world "/home/u/proj/a.py" = true
  /\ System.is_dir demo_world "/home/u/proj/a.py" = false.
Proof.
  split; [reflexivity|].
  pose proof (dir_exists_is_path_existence demo_world "/home/u/proj/a.py")
    as (_ & _ & Hfile & _).
  apply Hfile. reflexivity.
Defined.

Lemma stderr_witness :
  2%Z <> 0%Z
  /\ outcome (System.stderr "oops" 2) = Raise (SystemExit 2).
Proof.
  split; [discriminate|].
  apply (proj1 (proj2 (stderr_writes_then_exits_iff_nonzero "oops" 2))).
  discriminate.
Defined.

Lemma main_validation_failure_witness :
  App.command_suite_validates
    (App.Command (C := Commandline.Command) "naked" ["-x"; "test"]) = false
  /\ App.main demo_world "naked" ["-x"; "test"]
     = ([Call Usage_print_usage], Raise (SystemExit 1)).
Proof.
  split; [reflexivity|].
  apply (main_validation_failure_usage_exit_1
           Commandline.Command Commandline_api
           demo_world "naked" ["-x"; "test"]).
  reflexivity.
Defined.

Lemma main_framework_requests_witness :
  App.command_suite_validates
    (App.Command (C := Commandline.Command) "naked" ["foo"; "--usage"; "-h"])
  = true
  /\ ~ In (App.cmd (App.Command (C := Commandline.Command)
                                "naked" ["foo"; "--usage"; "-h"]))
          App.recognized_commands
  /\ App.help (App.Command (C := Commandline.Command)
                           "naked" ["foo"; "--usage"; "-h"]) = true
  /\ App.main demo_world "naked" ["foo"; "--usage"; "-h"]
     = ([Enter BHelp; Call Help_print_help], Ok tt).
Proof.
  assert (Hc : ~ In (App.cmd (App.Command (C := Commandline.Command)
                                          "naked" ["foo"; "--usage"; "-h"]))
                    App.recognized_commands)
    by (simpl; intuition discriminate).
  split; [reflexivity|]. split; [exact Hc|]. split; [reflexivity|].
  apply (proj1 (main_framework_requests_after_commands
                  Commandline.Command Commandline_api
                  demo_world "naked" ["foo"; "--usage"; "-h"]
                  eq_refl Hc)).
  reflexivity.
Defined.

Lemma main_unrecognized_command_witness :
  App.command_suite_validates
    (App.Command (C := Commandline.Command) "naked" ["foo"; "-v"]) = true
  /\ ~ In (App.cmd (App.Command (C := Commandline.Command)
                                "naked" ["foo"; "-v"]))
          App.recognized_commands
  /\ App.main demo_world "naked" ["foo"; "-v"]
     = ([Stdout (App.failure_message ++ newline)], Raise (SystemExit 1)).
Proof.
  assert (Hc : ~ In (App.cmd (App.Command (C := Commandline.Command)
                                          "naked" ["foo"; "-v"]))
                    App.recognized_commands)
    by (simpl; intuition discriminate).
  split; [reflexivity|]. split; [exact Hc|].
  apply (main_unrecognized_command_default_branch
           Commandline.Command Commandline_api
           demo_world "naked" ["foo"; "-v"]
           eq_refl Hc eq_refl eq_refl eq_refl).
Defined.

(** C2 as stated fails: with the arguments [test --help] the classifier
    reports a help request, and [main] runs the handler of [test] without
    calling the help printer. *)
Lemma help_request_shadowed_by_test_command :
  Commandline.help (Commandline.new "naked" ["test"; "--help"]) = true
  /\ App.main demo_world "naked" ["test"; "--help"]
     = ([Enter BTest; Call XList_map_to_items;
         Call (Print_of "xd"); Call (Print_of "xd.test")], Ok tt)
  /\ ~ In (Call Help_print_help)
          (trace (App.main demo_world "naked" ["test"; "--help"])).
Proof.
  split; [reflexivity|]. split; [reflexivity|].
  simpl. intuition discriminate.
Qed.

(** C6 as stated fails: on the empty argument vector the primary command
    is none of the recognised ones and nothing is requested, and [main]
    prints the usage text, not the failure message. *)
Lemma empty_arguments_print_usage_not_failure_message :
  ~ In (Commandline.cmd (Commandline.new "naked" []))
       App.recognized_commands
  /\ Commandline.help (Commandline.new "naked" []) = false
  /\ Commandline.usage (Commandline.new "naked" []) = false
  /\ Commandline.version (Commandline.new "naked" []) = false
  /\ App.main demo_world "naked" []
     = ([Call Usage_print_usage], Raise (SystemExit 1))
  /\ ~ In (Stdout (App.failure_message ++ newline))
          (trace (App.main demo_world "naked" [])).
Proof.
  split; [simpl; intuition discriminate|].
  repeat (split; [reflexivity|]).
  simpl. intuition discriminate.
Qed.

End Runs.

(* ===================================================================== *)
(** * Further results: strings *)
(* ===================================================================== *)

Section MoreStringFacts.

Import PyStr.

Lemma length_append (x y : string) :
  String.length (x ++ y) = String.length x + String.length y.
Proof. induction x as [|a x IH]; simpl; [reflexivity | now rewrite IH]. Qed.

Lemma append_assoc (x y z : string) : (x ++ y) ++ z = x ++ (y ++ z).
Proof. induction x as [|a x IH]; simpl; [reflexivity | now rewrite IH]. Qed.

Lemma take_append (x y : string) : take (String.length x) (x ++ y) = x.
Proof. induction x as [|a x IH]; simpl; [now destruct y | now rewrite IH]. Qed.

Lemma drop_append (x y : string) : drop (String.length x) (x ++ y) = y.
Proof. induction x as [|a x IH]; simpl; [reflexivity | exact IH]. Qed.

Lemma mem_append (c : ascii) (x y : string) :
  mem c (x ++ y) = mem c x || mem c y.
Proof.
  induction x as [|a x IH]; simpl; [reflexivity|].
  now rewrite IH, orb_assoc.
Qed.

Lemma startswith_iff (s pre : string) :
  startswith s pre = true <-> exists rest, s = pre ++ rest.
Proof.
  unfold startswith. revert s. induction pre as [|a pre IH]; intros s.
  - split; [intros _; now exists s | now destruct s].
  - destruct s as [|b s]; simpl.
    + split; [discriminate | intros (rest & H); discriminate].
    + destruct (ascii_dec a b) as [->|Hne].
      * rewrite IH. split; intros (rest & H); exists rest; congruence.
      * split; [discriminate | intros (rest & H); congruence].
Qed.

Lemma endswith_iff (s suf : string) :
  endswith s suf = true <-> exists pre, s = pre ++ suf.
Proof.
  unfold endswith. split.
  - intros H. apply andb_true_iff in H. destruct H as [_ H].
    apply String.eqb_eq in H.
    remember (String.length s - String.length suf) as n eqn:En.
    exists (take n s). rewrite <- H. symmetry. apply take_drop.
  - intros (pre & ->). rewrite length_append. apply andb_true_iff. split.
    + apply Nat.leb_le. lia.
    + replace (String.length pre + String.length suf - String.length suf)
        with (String.length pre) by lia.
      rewrite drop_append. apply String.eqb_refl.
Qed.

Lemma rfind_from_absent (c : ascii) (s : string) (i acc : Z) :
  mem c s = false -> rfind_from c s i acc = acc.
Proof.
  revert i acc. induction s as [|a s IH]; intros i acc; simpl;
    [reflexivity|].
  intros H. apply orb_false_iff in H. destruct H as [Ha Hs].
  rewrite Ha. now apply IH.
Qed.

(** The last occurrence is the one after which there is no other. *)
Lemma rfind_from_last (c : ascii) (x y : string) (i acc : Z) :
  mem c y = false ->
  rfind_from c (x ++ String c y) i acc = (i + Z.of_nat (String.length x))%Z.
Proof.
  intros Hy. revert i acc. induction x as [|a x IH]; intros i acc; simpl.
  - rewrite Ascii.eqb_refl, rfind_from_absent by exact Hy. lia.
  - rewrite IH. lia.
Qed.

Lemma rfind_last (c : ascii) (x y : string) :
  mem c y = false ->
  rfind (x ++ String c y) c = Z.of_nat (String.length x).
Proof. intros Hy. unfold rfind. now rewrite rfind_from_last. Qed.

Lemma rfind_absent (c : ascii) (s : string) :
  mem c s = false -> rfind s c = (-1)%Z.
Proof. intros H. unfold rfind. now apply rfind_from_absent. Qed.

(** A string that is empty or ends with the separator, followed by a string
    free of separators: the last separator is the end of the first part. *)
Lemma rfind_sep_after_prefix (pre tail : string) :
  (pre = "" \/ exists x, pre = x ++ "/") ->
  mem "/"%char tail = false ->
  (rfind (pre ++ tail) "/"%char + 1)%Z = Z.of_nat (String.length pre).
Proof.
  intros [->|(x & ->)] Ht.
  - simpl. now rewrite rfind_absent.
  - rewrite append_assoc. simpl.
    rewrite rfind_last by exact Ht.
    rewrite length_append. simpl. lia.
Qed.

Lemma rstrip_no_trailing (c a : ascii) (x : string) :
  a <> c -> Posix.rstrip c (x ++ String a "") = x ++ String a "".
Proof.
  intros Hne. induction x as [|b x IH]; simpl.
  - destruct (Ascii.eqb_spec a c); [contradiction | reflexivity].
  - rewrite IH. destruct x; reflexivity.
Qed.

Lemma rstrip_trailing (c : ascii) (s : string) :
  Posix.rstrip c (s ++ String c "") = Posix.rstrip c s.
Proof.
  induction s as [|b s IH]; simpl.
  - now rewrite Ascii.eqb_refl.
  - now rewrite IH.
Qed.

End MoreStringFacts.

(* ===================================================================== *)
(** * Further results: directory listings *)
(* ===================================================================== *)

Section ListingFacts.

Import Py.

(** X1.  On a directory that can be listed, [list_all_files] returns the
    listed names that are regular files once joined to the directory, and
    no others: no returned name is a directory, and the result is never
    longer than the listing. *)
Theorem list_all_files_regular_entries :
  forall (w : Os.World) (dir : string) (names : list string),
    Os.listdir w dir = Some names ->
    exists files,
      System.list_all_files w dir = Ok files
      /\ (forall name,
             In name files <->
             In name names
             /\ System.is_file w (Os.path_join dir [name]) = true)
      /\ (forall name,
             In name files ->
             System.is_dir w (Os.path_join dir [name]) = false)
      /\ List.length files <= List.length names.
Proof.
  intros w dir names Hls.
  unfold System.list_all_files, System.os_listdir. rewrite Hls.
  eexists. split; [reflexivity|]. split; [|split].
  - intros name.
    exact (filter_In (fun n => Os.path_isfile w (Os.path_join dir [n]))
                     name names).
  - intros name Hin. apply filter_In in Hin. destruct Hin as [_ Hf].
    unfold System.is_dir, Os.path_isdir.
    unfold Os.path_isfile in Hf.
    destruct (Os.stat w (Os.path_join dir [name])) as [[| |]|];
      congruence.
  - apply filter_length_le.
Qed.

(** X2.  The two listing functions return a list exactly when
    [os.listdir] returns one for the directory, and end with an exception
    exactly when it does not: they add no failure of their own and they do
    not hide the failure of the listing. *)
Theorem listing_raises_iff_listdir_fails :
  forall (w : Os.World) (extension_filter dir : string),
    ((exists files, System.list_all_files w dir = Ok files)
     <-> exists names, Os.listdir w dir = Some names)
    /\ ((exists files,
           System.list_filter_files w extension_filter dir = Ok files)
        <-> exists names, Os.listdir w dir = Some names)
    /\ ((exists e, System.list_all_files w dir = Raise e)
        <-> Os.listdir w dir = None)
    /\ ((exists e, System.list_filter_files w extension_filter dir = Raise e)
        <-> Os.listdir w dir = None).
Proof.
  intros w ext dir.
  unfold System.list_all_files, System.list_filter_files, System.os_listdir.
  destruct (Os.listdir w dir) as [names|]; repeat split;
    try (intros (x & H); discriminate);
    try discriminate;
    intros; eexists; reflexivity.
Qed.

(** X3.  The leading period of the extension is optional: an extension
    given without it selects the same names as the extension with it. *)
Theorem list_filter_files_period_optional :
  forall (w : Os.World) (extension_filter dir : string),
    PyStr.startswith extension_filter "." = false ->
    System.list_filter_files w extension_filter dir
    = System.list_filter_files w ("." ++ extension_filter) dir.
Proof.
  intros w ext dir H. unfold System.list_filter_files. rewrite H.
  assert (Hdot : PyStr.startswith ("." ++ ext) "." = true)
    by (apply startswith_iff; now exists ext).
  rewrite Hdot. reflexivity.
Qed.

(** X4.  On a directory that can be listed, [list_filter_files] returns
    exactly the listed names that end with the extension, the period
    included; whether a name is a file or a directory plays no part. *)
Theorem list_filter_files_by_suffix :
  forall (w : Os.World) (extension_filter dir : string) (names : list string),
    Os.listdir w dir = Some names ->
    exists files,
      System.list_filter_files w extension_filter dir = Ok files
      /\ forall name,
           In name files <->
           In name names
           /\ exists stem,
                name = stem ++ (if PyStr.startswith extension_filter "."
                                then extension_filter
                                else "." ++ extension_filter).
Proof.
  intros w ext dir names Hls.
  unfold System.list_filter_files, System.os_listdir. rewrite Hls.
  eexists. split; [reflexivity|].
  intros name. rewrite filter_In, endswith_iff.
  destruct (PyStr.startswith ext "."); simpl; reflexivity.
Qed.

End ListingFacts.

(* ===================================================================== *)
(** * Further results: building and taking apart paths *)
(* ===================================================================== *)

Section PathFacts.

Lemma no_sep_not_absolute (name : string) :
  PyStr.mem "/"%char name = false -> PyStr.startswith name "/" = false.
Proof.
  intros H. destruct (PyStr.startswith name "/") eqn:E; [|reflexivity].
  apply startswith_iff in E. destruct E as (rest & ->).
  simpl in H. discriminate.
Qed.

Lemma last_char_eq (x y : string) (a b : ascii) :
  x ++ String a "" = y ++ String b "" -> a = b.
Proof.
  revert y. induction x as [|c x IH]; intros [|d y]; simpl; intros H.
  - congruence.
  - injection H as _ H. destruct y; discriminate.
  - injection H as _ H. destruct x; discriminate.
  - injection H as _ H. now apply (IH y).
Qed.

(** One step of the join, by cases on what is joined. *)
Lemma join_step_relative (path b : string) :
  PyStr.startswith b "/" = false ->
  exists pre,
    Os.join_step path b = pre ++ b
    /\ (pre = "" \/ exists x, pre = x ++ "/").
Proof.
  intros Hb. unfold Os.join_step, Os.sep. rewrite Hb.
  destruct (String.eqb_spec path "") as [->|Hne]; simpl.
  - exists "". split; [reflexivity | now left].
  - destruct (PyStr.endswith path "/") eqn:E.
    + exists path. split; [reflexivity|]. right. now apply endswith_iff.
    + exists (path ++ "/"). split; [now rewrite append_assoc|].
      right. now exists path.
Qed.

Lemma basename_after_prefix (pre tail : string) :
  (pre = "" \/ exists x, pre = x ++ "/") ->
  PyStr.mem "/"%char tail = false ->
  Posix.basename (pre ++ tail) = tail.
Proof.
  intros Hpre Ht. unfold Posix.basename.
  rewrite (rfind_sep_after_prefix pre tail Hpre Ht), Nat2Z.id.
  apply drop_append.
Qed.

Lemma join_absolute (path b : string) :
  PyStr.startswith b "/" = true -> Os.path_join path [b] = b.
Proof.
  intros H. unfold Os.path_join. simpl. unfold Os.join_step, Os.sep.
  now rewrite H.
Qed.

(** X5.  [fullpath] leaves an absolute name as it is: the working
    directory is not put in front of a name that starts with the
    separator. *)
Theorem fullpath_absolute_name_unchanged :
  forall (w : Os.World) (file_name : string),
    PyStr.startswith file_name "/" = true ->
    System.fullpath w file_name = file_name.
Proof.
  intros w name H.
  unfold System.fullpath, System.currentdir_to_basefile.
  now apply join_absolute.
Qed.

(** X6.  [filename] undoes [fullpath]: for a name without separator, the
    file name of its full path is the name, whatever the working
    directory. *)
Theorem filename_of_fullpath :
  forall (w : Os.World) (file_name : string),
    PyStr.mem "/"%char file_name = false ->
    Toolshed.filename (System.fullpath w file_name) = file_name.
Proof.
  intros w name H.
  unfold Toolshed.filename, System.fullpath, System.currentdir_to_basefile,
    Os.path_join. simpl.
  destruct (join_step_relative (Os.getcwd w) name (no_sep_not_absolute _ H))
    as (pre & -> & Hpre).
  now apply basename_after_prefix.
Qed.

(** X7.  [filename] returns the part of the path after its last separator:
    it holds no separator, and what comes before it in the path is empty or
    ends with a separator. *)
Theorem filename_is_last_component :
  forall filepath : string,
    PyStr.mem "/"%char (Toolshed.filename filepath) = false
    /\ exists head,
         filepath = head ++ Toolshed.filename filepath
         /\ (head = "" \/ PyStr.endswith head "/" = true).
Proof.
  intros p. unfold Toolshed.filename, Posix.basename.
  destruct (rfind_spec p "/"%char)
    as [[Hno Hr] | (n & rest & Hr & Hdrop & Hno)]; rewrite Hr.
  - simpl. split; [exact Hno|]. exists "". split; [reflexivity | now left].
  - replace (Z.to_nat (Z.of_nat n + 1)) with (n + 1) by lia.
    rewrite <- drop_drop, Hdrop. simpl. split; [exact Hno|].
    exists (PyStr.take n p ++ "/"). split.
    + rewrite append_assoc. simpl. rewrite <- Hdrop. symmetry.
      apply take_drop.
    + right. apply endswith_iff. now exists (PyStr.take n p).
Qed.

End PathFacts.

Section MorePathFacts.

Lemma repeat_char_all (c a : ascii) (n : nat) (x y : string) :
  Posix.repeat_char c n = x ++ String a y -> a = c.
Proof.
  revert x. induction n as [|n IH]; intros x; simpl.
  - destruct x; discriminate.
  - destruct x as [|b x]; simpl; intros H.
    + congruence.
    + injection H as _ H. now apply (IH x).
Qed.

Lemma rstrip_prefix (c : ascii) (s : string) :
  exists t, s = Posix.rstrip c s ++ t.
Proof.
  induction s as [|a s (t & IH)]; simpl.
  - now exists "".
  - destruct (Posix.rstrip c s) as [|b r] eqn:E.
    + destruct (Ascii.eqb a c).
      * now exists (String a s).
      * now exists s.
    + exists t. simpl in *. now rewrite <- IH.
Qed.

Lemma take_prefix (n : nat) (s : string) : exists t, s = PyStr.take n s ++ t.
Proof. exists (PyStr.drop n s). symmetry. apply take_drop. Qed.

(** X8.  [directory] returns a prefix of the path, and the empty string for
    a path without separator. *)
Theorem directory_is_prefix :
  forall filepath : string,
    PyStr.startswith filepath (Toolshed.directory filepath) = true
    /\ (PyStr.mem "/"%char filepath = false ->
        Toolshed.directory filepath = "").
Proof.
  intros p. unfold Toolshed.directory, Posix.dirname. split.
  - apply startswith_iff.
    destruct (take_prefix (Z.to_nat (PyStr.rfind p "/"%char + 1)) p)
      as (t & Ht).
    destruct (_ && _).
    + destruct (rstrip_prefix "/"%char
                  (PyStr.take (Z.to_nat (PyStr.rfind p "/"%char + 1)) p))
        as (t' & Ht').
      exists (t' ++ t). rewrite <- append_assoc, <- Ht'. exact Ht.
    + now exists t.
  - intros H. rewrite (rfind_absent _ _ H). reflexivity.
Qed.

(** X9.  [directory] and [filename] take apart what [make_path] puts
    together: for a directory that ends with a character other than the
    separator and a name without separator, the joined path has that
    directory and that file name. *)
Theorem directory_filename_of_make_path :
  forall (x : string) (a : ascii) (name : string),
    a <> "/"%char ->
    PyStr.mem "/"%char name = false ->
    Toolshed.make_path (x ++ String a "") [name]
    = (x ++ String a "") ++ "/" ++ name
    /\ Toolshed.directory (Toolshed.make_path (x ++ String a "") [name])
       = x ++ String a ""
    /\ Toolshed.filename (Toolshed.make_path (x ++ String a "") [name])
       = name.
Proof.
  intros x a name Ha Hname.
  assert (Hjoin : Toolshed.make_path (x ++ String a "") [name]
                  = (x ++ String a "") ++ "/" ++ name).
  { unfold Toolshed.make_path, Os.path_join. simpl.
    unfold Os.join_step, Os.sep.
    rewrite (no_sep_not_absolute _ Hname).
    destruct (String.eqb_spec (x ++ String a "") "") as [E|_];
      [destruct x; discriminate|]. simpl.
    destruct (PyStr.endswith (x ++ String a "") "/") eqn:E; [|reflexivity].
    apply endswith_iff in E. destruct E as (pre & E).
    apply last_char_eq in E. contradiction. }
  rewrite Hjoin. split; [reflexivity|].
  set (d := x ++ String a "") in *.
  assert (Hpre : d ++ "/" = "" \/ exists y, d ++ "/" = y ++ "/")
    by (right; now exists d).
  rewrite <- append_assoc. split.
  - unfold Toolshed.directory, Posix.dirname.
    rewrite (rfind_sep_after_prefix _ _ Hpre Hname), Nat2Z.id, take_append.
    destruct (String.eqb_spec (d ++ "/") "") as [E|_];
      [destruct d; discriminate|].
    destruct (String.eqb_spec
                (d ++ "/")
                (Posix.repeat_char "/"%char (String.length (d ++ "/"))))
      as [E|_].
    + exfalso. apply Ha. symmetry in E. unfold d in E.
      rewrite append_assoc in E. simpl in E.
      now apply repeat_char_all in E.
    + simpl. rewrite rstrip_trailing. unfold d.
      now apply rstrip_no_trailing.
  - unfold Toolshed.filename. now apply basename_after_prefix.
Qed.

(** X10.  Joining in two steps is joining at once: the joined path of a
    first group of components, joined with a second group, is the joined
    path of all of them. *)
Theorem make_path_composes :
  forall (a : string) (p q : list string),
    Toolshed.make_path (Toolshed.make_path a p) q
    = Toolshed.make_path a (p ++ q)%list.
Proof.
  intros a p q. unfold Toolshed.make_path, Os.path_join.
  now rewrite fold_left_app.
Qed.

(** X11.  An absolute component throws away all the components before
    it. *)
Theorem make_path_absolute_component_resets :
  forall (a b : string) (p q : list string),
    PyStr.startswith b "/" = true ->
    Toolshed.make_path a (p ++ b :: q)%list = Toolshed.make_path b q.
Proof.
  intros a b p q Hb. unfold Toolshed.make_path, Os.path_join.
  rewrite fold_left_app. simpl. unfold Os.join_step at 2, Os.sep.
  now rewrite Hb.
Qed.

(** X12.  The last component is always a suffix of the joined path. *)
Theorem make_path_ends_with_last_component :
  forall (a b : string) (p : list string),
    PyStr.endswith (Toolshed.make_path a (p ++ [b])%list) b = true.
Proof.
  intros a b p. unfold Toolshed.make_path, Os.path_join.
  rewrite fold_left_app. simpl. apply endswith_iff.
  unfold Os.join_step.
  destruct (PyStr.startswith b Os.sep); [now exists ""|].
  destruct (_ || _); [eexists; reflexivity|].
  eexists. rewrite <- append_assoc. reflexivity.
Qed.

End MorePathFacts.

(* ===================================================================== *)
(** * Further results: extensions, pattern matches, streams *)
(* ===================================================================== *)

Section ExtensionFacts.

Import Py.

(** X13.  [file_extension] takes a name apart at its last period: when the
    last component of the path starts with a character other than a
    period, and the extension holds neither a period nor a separator, the
    result is the path up to the period and the extension with its
    period. *)
Theorem file_extension_splits_at_last_period :
  forall (pre : string) (a : ascii) (rest ext : string),
    (pre = "" \/ exists x, pre = x ++ "/") ->
    a <> "."%char ->
    PyStr.mem "/"%char (String a rest) = false ->
    PyStr.mem "."%char ext = false ->
    PyStr.mem "/"%char ext = false ->
    System.file_extension (pre ++ String a rest ++ "." ++ ext)
    = (pre ++ String a rest, "." ++ ext).
Proof.
  intros pre a rest ext Hpre Ha Hbase Hext_dot Hext_sep.
  set (p := pre ++ String a rest ++ "." ++ ext).
  assert (Hp : p = (pre ++ String a rest) ++ String "."%char ext)
    by (unfold p; now rewrite append_assoc).
  assert (Hdot : PyStr.rfind p "."%char
                 = Z.of_nat (String.length (pre ++ String a rest)))
    by (rewrite Hp; now apply rfind_last).
  assert (Hsep : (PyStr.rfind p "/"%char + 1)%Z
                 = Z.of_nat (String.length pre)).
  { unfold p. apply rfind_sep_after_prefix; [exact Hpre|].
    change (String a rest ++ "." ++ ext)
      with (String a (rest ++ String "."%char ext)).
    simpl in Hbase |- *. apply orb_false_iff in Hbase.
    destruct Hbase as [Hb1 Hb2]. rewrite Hb1. simpl.
    rewrite mem_append, Hb2. simpl. exact Hext_sep. }
  unfold System.file_extension, Os.path_splitext.
  rewrite Hsep, Hdot.
  assert (Hlt : (PyStr.rfind p "/"%char
                 <? Z.of_nat (String.length (pre ++ String a rest)))%Z
                = true).
  { apply Z.ltb_lt. rewrite length_append. simpl. lia. }
  rewrite Hlt, !Nat2Z.id.
  replace (Z.to_nat (Z.of_nat (String.length (pre ++ String a rest))
                     - Z.of_nat (String.length pre)))
    with (S (String.length rest))
    by (rewrite length_append; simpl; lia).
  simpl Os.has_non_dot. unfold PyStr.slice1, p.
  rewrite drop_append. simpl PyStr.take.
  assert (Hne : String.eqb (String a "") Os.extsep = false).
  { apply String.eqb_neq. unfold Os.extsep. congruence. }
  rewrite Hne. simpl negb. cbv iota.
  change (pre ++ String a rest ++ "." ++ ext)
    with (pre ++ String a (rest ++ String "."%char ext)).
  replace (pre ++ String a (rest ++ String "."%char ext))
    with ((pre ++ String a rest) ++ String "."%char ext)
    by (now rewrite append_assoc).
  rewrite take_append, drop_append. reflexivity.
Qed.

(** X14.  A name that starts with its only period has no extension: for a
    last component made of a period and a name without period, the result
    is the whole path and the empty string. *)
Theorem file_extension_hidden_file :
  forall (pre name : string),
    (pre = "" \/ exists x, pre = x ++ "/") ->
    PyStr.mem "."%char name = false ->
    PyStr.mem "/"%char name = false ->
    System.file_extension (pre ++ "." ++ name) = (pre ++ "." ++ name, "").
Proof.
  intros pre name Hpre Hdotless Hsepless.
  set (p := pre ++ "." ++ name).
  assert (Hdot : PyStr.rfind p "."%char = Z.of_nat (String.length pre))
    by (unfold p; simpl; now apply rfind_last).
  assert (Hsep : (PyStr.rfind p "/"%char + 1)%Z
                 = Z.of_nat (String.length pre))
    by (unfold p; apply rfind_sep_after_prefix; [exact Hpre | exact Hsepless]).
  unfold System.file_extension, Os.path_splitext.
  rewrite Hsep, Hdot, Z.sub_diag. simpl Os.has_non_dot.
  destruct (_ <? _)%Z; reflexivity.
Qed.

(** X15.  A path without any period has no extension. *)
Theorem file_extension_no_period :
  forall filepath : string,
    PyStr.mem "."%char filepath = false ->
    System.file_extension filepath = (filepath, "").
Proof.
  intros p H. unfold System.file_extension, Os.path_splitext.
  rewrite (rfind_absent _ _ H).
  destruct (Z.ltb_spec (PyStr.rfind p "/"%char) (-1)) as [Hlt|_];
    [|reflexivity].
  exfalso.
  destruct (rfind_spec p "/"%char) as [[_ Hr] | (n & ? & Hr & _)]; lia.
Qed.

End ExtensionFacts.

Section MatchFacts.

Variable w : Os.World.
Variable glob : string -> list string.

Lemma fullpath_loop_map (cwd : string) (filenames acc : list string) :
  Toolshed.fullpath_loop cwd filenames acc
  = (acc ++ map (fun name => Os.path_join cwd [name]) filenames)%list.
Proof.
  revert acc. induction filenames as [|name rest IH]; intros acc; simpl.
  - now rewrite app_nil_r.
  - now rewrite IH, <- app_assoc.
Qed.

(** X16.  With [full_path] set, [list_match_files] returns the matches of
    the pattern, in the same order and number, each one as [fullpath]
    would return it; so a match that is already absolute is unchanged. *)
Theorem list_match_files_full_path_is_fullpath :
  forall match_pattern : string,
    Toolshed.list_match_files w glob match_pattern true
    = map (System.fullpath w)
          (Toolshed.list_match_files w glob match_pattern false)
    /\ List.length (Toolshed.list_match_files w glob match_pattern true)
       = List.length (glob match_pattern)
    /\ (forall name,
           In name (glob match_pattern) ->
           PyStr.startswith name "/" = true ->
           In name (Toolshed.list_match_files w glob match_pattern true)).
Proof.
  intros pat. unfold Toolshed.list_match_files.
  rewrite fullpath_loop_map. simpl.
  split; [reflexivity|]. split; [apply length_map|].
  intros name Hin Habs. apply in_map_iff. exists name. split; [|exact Hin].
  unfold System.fullpath, System.currentdir_to_basefile.
  now apply join_absolute.
Qed.

End MatchFacts.

Section StreamFacts.

Import Py.
Local Open Scope py_scope.

(** X17.  [exit_with_status] raises for every code, zero included, where
    [stderr] with code zero returns; and [stderr] with a non-zero code is
    [stderr] with code zero followed by [exit_with_status]. *)
Theorem stderr_then_exit_with_status :
  forall (text : string) (code : Z),
    (System.stderr text 0 ;; System.exit_with_status code)
    = ([Stderr text], Raise (SystemExit code))
    /\ (code <> 0%Z ->
        System.stderr text code
        = (System.stderr text 0 ;; System.exit_with_status code)).
Proof.
  intros text code. split; [reflexivity|].
  intros Hne. unfold System.stderr, truthy.
  destruct (Z.eqb_spec code 0) as [E|_]; [contradiction | reflexivity].
Qed.

End StreamFacts.

(* ===================================================================== *)
(** * Further results: the dispatcher *)
(* ===================================================================== *)

Section MoreDispatcherFacts.

Import Py.

Context {C : Type} {api : App.CommandAPI C}.

Ltac split_conditions :=
  repeat match goal with
         | |- context [if ?b then _ else _] => destruct b
         end.


(** X20.  The command [bump] does nothing, whatever the secondary command
    is: a secondary command other than [patch], [minor] and [major] is
    accepted without a message, and [main] returns. *)
Theorem main_bump_is_silent :
  forall (w : Os.World) (argv0 : string) (args : list string),
    App.command_suite_validates (App.Command argv0 args) = true ->
    App.cmd (App.Command argv0 args) = "bump" ->
    App.main w argv0 args = ([Enter BBump], Ok tt).
Proof.
  intros w argv0 args Hv Hc. unfold App.main. rewrite Hv, Hc. simpl.
  split_conditions; reflexivity.
Qed.

(** X21.  The command [loc] prints the working directory and then the
    expansion of [~/naked/universal_settings.yaml], each on a line of the
    standard output. *)
Theorem main_loc_prints_locations :
  forall (w : Os.World) (argv0 : string) (args : list string),
    App.command_suite_validates (App.Command argv0 args) = true ->
    App.cmd (App.Command argv0 args) = "loc" ->
    App.main w argv0 args
    = ([Enter BLoc;
        Stdout (Os.getcwd w ++ newline);
        Stdout (Os.expanduser w "~/naked/universal_settings.yaml" ++ newline)],
       Ok tt).
Proof.
  intros w argv0 args Hv Hc. unfold App.main. rewrite Hv, Hc. reflexivity.
Qed.

(** X22.  At most one of the three printers is called in a run, and it is
    called once: the events of a run hold at most one call of a
    collaborator among usage, help and version. *)
Theorem main_calls_at_most_one_printer :
  forall (w : Os.World) (argv0 : string) (args : list string),
    List.length
      (filter (fun e => match e with
                        | Call Usage_print_usage
                        | Call Help_print_help
                        | Call Version_print_version => true
                        | _ => false
                        end)
              (trace (App.main w argv0 args))) <= 1.
Proof.
  intros w argv0 args. unfold App.main.
  split_conditions; simpl; lia.
Qed.

End MoreDispatcherFacts.

(* ===================================================================== *)
(** * Further concrete runs *)
(* ===================================================================== *)

Section MoreRuns.

Import Py.

Lemma list_all_files_witness :
  Os.listdir demo_world "/home/u/proj" = Some ["a.py"; "src"; "notes.txt"]
  /\ exists files,
       System.list_all_files demo_world "/home/u/proj" = Ok files
       /\ List.length files <= 3.
Proof.
  split; [reflexivity|].
  destruct (list_all_files_regular_entries
              demo_world "/home/u/proj" ["a.py"; "src"; "notes.txt"] eq_refl)
    as (files & Hok & _ & _ & Hlen).
  exists files. split; [exact Hok | exact Hlen].
Defined.

Lemma listing_raises_witness :
  Os.listdir demo_world "/nowhere" = None
  /\ exists e, System.list_all_files demo_world "/nowhere" = Raise e.
Proof.
  split; [reflexivity|].
  apply (proj2 (proj1 (proj2 (proj2 (listing_raises_iff_listdir_fails
                                       demo_world "py" "/nowhere"))))).
  reflexivity.
Defined.

Lemma list_filter_files_period_witness :
  PyStr.startswith "py" "." = false
  /\ System.list_filter_files demo_world "py" "/home/u/proj"
     = System.list_filter_files demo_world ".py" "/home/u/proj".
Proof.
  split; [reflexivity|].
  apply (list_filter_files_period_optional demo_world "py" "/home/u/proj").
  reflexivity.
Defined.

Lemma list_filter_files_suffix_witness :
  Os.listdir demo_world "/home/u/proj" = Some ["a.py"; "src"; "notes.txt"]
  /\ exists files,
       System.list_filter_files demo_world "txt" "/home/u/proj" = Ok files.
Proof.
  split; [reflexivity|].
  destruct (list_filter_files_by_suffix
              demo_world "txt" "/home/u/proj" ["a.py"; "src"; "notes.txt"]
              eq_refl)
    as (files & Hok & _).
  exists files. exact Hok.
Defined.

Lemma fullpath_absolute_witness :
  PyStr.startswith "/etc/hosts" "/" = true
  /\ System.fullpath demo_world "/etc/hosts" = "/etc/hosts".
Proof.
  split; [reflexivity|].
  apply (fullpath_absolute_name_unchanged demo_world "/etc/hosts").
  reflexivity.
Defined.

Lemma filename_of_fullpath_witness :
  PyStr.mem "/"%char "a.py" = false
  /\ Toolshed.filename (System.fullpath demo_world "a.py") = "a.py".
Proof.
  split; [reflexivity|].
  apply (filename_of_fullpath demo_world "a.py"). reflexivity.
Defined.

Lemma directory_is_prefix_witness :
  PyStr.mem "/"%char "notes.txt" = false
  /\ Toolshed.directory "notes.txt" = "".
Proof.
  split; [reflexivity|].
  apply (proj2 (directory_is_prefix "notes.txt")). reflexivity.
Defined.

Lemma directory_filename_witness :
  "j"%char <> "/"%char
  /\ PyStr.mem "/"%char "a.py" = false
  /\ Toolshed.directory (Toolshed.make_path ("/home/u/pro" ++ "j") ["a.py"])
     = "/home/u/pro" ++ "j".
Proof.
  assert (Ha : "j"%char <> "/"%char) by discriminate.
  split; [exact Ha|]. split; [reflexivity|].
  apply (proj1 (proj2 (directory_filename_of_make_path
                         "/home/u/pro" "j"%char "a.py" Ha eq_refl))).
Defined.

Lemma make_path_absolute_witness :
  PyStr.startswith "/etc" "/" = true
  /\ Toolshed.make_path "a" (["b"] ++ "/etc" :: ["hosts"])%list
     = Toolshed.make_path "/etc" ["hosts"].
Proof.
  split; [reflexivity|].
  apply (make_path_absolute_component_resets "a" "/etc" ["b"] ["hosts"]).
  reflexivity.
Defined.

Lemma file_extension_splits_witness :
  ("src/" = "" \/ exists x, "src/" = x ++ "/")
  /\ System.file_extension ("src/" ++ String "m"%char "ain" ++ "." ++ "py")
     = ("src/" ++ String "m"%char "ain", "." ++ "py").
Proof.
  assert (Hpre : "src/" = "" \/ exists x, "src/" = x ++ "/")
    by (right; now exists "src").
  assert (Ha : "m"%char <> "."%char) by discriminate.
  split; [exact Hpre|].
  apply (file_extension_splits_at_last_period
           "src/" "m"%char "ain" "py" Hpre Ha eq_refl eq_refl eq_refl).
Defined.

Lemma file_extension_hidden_witness :
  ("" = "" \/ exists x, "" = x ++ "/")
  /\ System.file_extension ("" ++ "." ++ "bashrc") = ("" ++ "." ++ "bashrc", "").
Proof.
  assert (Hpre : "" = "" \/ exists x, "" = x ++ "/") by now left.
  split; [exact Hpre|].
  apply (file_extension_hidden_file "" "bashrc" Hpre eq_refl eq_refl).
Defined.

Lemma file_extension_no_period_witness :
  PyStr.mem "."%char "build/Makefile" = false
  /\ System.file_extension "build/Makefile" = ("build/Makefile", "").
Proof.
  split; [reflexivity|].
  apply (file_extension_no_period "build/Makefile"). reflexivity.
Defined.

Lemma list_match_files_witness :
  In "/x/y" ["/x/y"; "a.py"]
  /\ PyStr.startswith "/x/y" "/" = true
  /\ In "/x/y"
        (Toolshed.list_match_files demo_world (fun _ => ["/x/y"; "a.py"])
                                   "*" true).
Proof.
  assert (Hin : In "/x/y" ["/x/y"; "a.py"]) by (simpl; tauto).
  split; [exact Hin|]. split; [reflexivity|].
  apply (proj2 (proj2 (list_match_files_full_path_is_fullpath
                         demo_world (fun _ => ["/x/y"; "a.py"]) "*"))
               "/x/y" Hin eq_refl).
Defined.

Lemma stderr_then_exit_witness :
  2%Z <> 0%Z
  /\ System.stderr "oops" 2 = ([Stderr "oops"], Raise (SystemExit 2)).
Proof.
  assert (Hne : 2%Z <> 0%Z) by discriminate.
  split; [exact Hne|].
  rewrite (proj2 (stderr_then_exit_with_status "oops" 2) Hne).
  apply (proj1 (stderr_then_exit_with_status "oops" 2)).
Defined.


Lemma main_bump_witness :
  App.cmd (App.Command (C := Commandline.Command)
                       "naked" ["bump"; "sideways"]) = "bump"
  /\ App.main demo_world "naked" ["bump"; "sideways"] = ([Enter BBump], Ok tt).
Proof.
  split; [reflexivity|].
  apply (main_bump_is_silent (api := Commandline_api)
                             demo_world "naked" ["bump"; "sideways"]);
    reflexivity.
Defined.

Lemma main_loc_witness :
  App.cmd (App.Command (C := Commandline.Command) "naked" ["loc"]) = "loc"
  /\ App.main demo_world "naked" ["loc"]
     = ([Enter BLoc;
         Stdout ("/home/u/proj" ++ newline);
         Stdout ("/home/u/naked/universal_settings.yaml" ++ newline)],
        Ok tt).
Proof.
  split; [reflexivity|].
  apply (main_loc_prints_locations (api := Commandline_api)
                                   demo_world "naked" ["loc"]);
    reflexivity.
Defined.

End MoreRuns.

(* ===================================================================== *)
(** * The pair returned by [file_extension] *)
(* ===================================================================== *)

Section ExtensionPair.

Import PyStr.

Lemma drop_cons_length (j : nat) (s : string) (a : ascii) (t : string) :
  drop j s = String a t -> String.length (take j s) = j.
Proof.
  revert s. induction j as [|j IH]; intros [|b s]; simpl; intros H;
    try reflexivity; try discriminate.
  f_equal. now apply IH.
Qed.

(** The scan for a character other than a period, on a path cut into what
    comes before the scanned part, the scanned part and what follows. *)
Lemma has_non_dot_base (pre base rest : string) :
  Os.has_non_dot (pre ++ base ++ rest) (String.length pre)
                 (String.length base) = true
  <-> exists u c v, base = u ++ String c v /\ c <> "."%char.
Proof.
  revert pre. induction base as [|b base IH]; intros pre.
  - simpl. split; [discriminate|].
    intros (u & c & v & H & _). destruct u; discriminate.
  - cbn [String.length Os.has_non_dot]. unfold slice1.
    rewrite drop_append. cbn [append take].
    destruct (Ascii.eqb_spec b "."%char) as [->|Hb].
    + cbn [String.eqb Ascii.eqb Os.extsep negb]. simpl negb. cbv iota.
      replace (pre ++ String "."%char (base ++ rest))
        with ((pre ++ ".") ++ base ++ rest)
        by (now rewrite append_assoc).
      replace (S (String.length pre)) with (String.length (pre ++ "."))
        by (rewrite length_append; simpl; lia).
      rewrite IH. split; intros (u & c & v & H & Hc).
      * exists (String "."%char u), c, v. simpl. now rewrite H.
      * destruct u as [|d u]; simpl in H; injection H as H1 H2.
        -- congruence.
        -- now exists u, c, v.
    + assert (Hne : String.eqb (String b "") Os.extsep = false)
        by (apply String.eqb_neq; unfold Os.extsep; congruence).
      rewrite Hne. simpl. split; [|reflexivity].
      intros _. now exists "", b, base.
Qed.

(** A path whose last component holds a period after some character other
    than a period is split at the last period. *)
Lemma path_splitext_split (pre base e : string) :
  (pre = "" \/ exists x, pre = x ++ "/") ->
  mem "/"%char base = false ->
  (exists u c v, base = u ++ String c v /\ c <> "."%char) ->
  mem "."%char e = false ->
  mem "/"%char e = false ->
  Os.path_splitext (pre ++ base ++ "." ++ e) = (pre ++ base, "." ++ e).
Proof.
  intros Hpre Hbase Hnd He_dot He_sep.
  set (p := pre ++ base ++ "." ++ e).
  assert (Hp : p = (pre ++ base) ++ String "."%char e)
    by (unfold p; now rewrite append_assoc).
  assert (Hdot : rfind p "."%char = Z.of_nat (String.length (pre ++ base)))
    by (rewrite Hp; now apply rfind_last).
  assert (Hsep : (rfind p "/"%char + 1)%Z = Z.of_nat (String.length pre)).
  { unfold p. apply rfind_sep_after_prefix; [exact Hpre|].
    rewrite mem_append, Hbase. simpl. exact He_sep. }
  apply (has_non_dot_base pre base ("." ++ e)) in Hnd. fold p in Hnd.
  unfold Os.path_splitext.
  rewrite Hsep, Hdot.
  assert (Hlt : (rfind p "/"%char
                 <? Z.of_nat (String.length (pre ++ base)))%Z = true)
    by (apply Z.ltb_lt; rewrite length_append; lia).
  rewrite Hlt, !Nat2Z.id.
  replace (Z.to_nat (Z.of_nat (String.length (pre ++ base))
                     - Z.of_nat (String.length pre)))
    with (String.length base)
    by (rewrite length_append; lia).
  rewrite Hnd, Hp, take_append, drop_append. reflexivity.
Qed.

(** From the positions the scan works with to the parts of the path. *)
Lemma split_from_positions (p pre tail e : string) (j : nat) :
  p = pre ++ tail ->
  (pre = "" \/ exists x, pre = x ++ "/") ->
  mem "/"%char tail = false ->
  drop j tail = String "."%char e ->
  mem "."%char e = false ->
  Os.has_non_dot p (String.length pre) j = true ->
  exists pre base e,
    p = pre ++ base ++ "." ++ e
    /\ (pre = "" \/ exists x, pre = x ++ "/")
    /\ mem "/"%char base = false
    /\ (exists u c v, base = u ++ String c v /\ c <> "."%char)
    /\ mem "."%char e = false
    /\ mem "/"%char e = false.
Proof.
  intros Hp Hpre Htail Hdrop He Hnd.
  assert (Ht : tail = take j tail ++ String "."%char e)
    by (rewrite <- Hdrop; symmetry; apply take_drop).
  assert (Hlen : String.length (take j tail) = j)
    by (now apply (drop_cons_length j tail "."%char e)).
  rewrite Ht, mem_append in Htail. apply orb_false_iff in Htail.
  destruct Htail as [Hb Hd]. simpl in Hd.
  exists pre, (take j tail), e. repeat split; try assumption.
  - rewrite Hp. now rewrite Ht at 1.
  - apply (has_non_dot_base pre (take j tail) ("." ++ e)).
    rewrite Hlen. simpl append at 2. rewrite <- Ht, <- Hp. exact Hnd.
Qed.

(** [splitext] either leaves the path whole or splits a path of the shape
    above. *)
Lemma path_splitext_cases (p : string) :
  Os.path_splitext p = (p, "")
  \/ exists pre base e,
       p = pre ++ base ++ "." ++ e
       /\ (pre = "" \/ exists x, pre = x ++ "/")
       /\ mem "/"%char base = false
       /\ (exists u c v, base = u ++ String c v /\ c <> "."%char)
       /\ mem "."%char e = false
       /\ mem "/"%char e = false.
Proof.
  unfold Os.path_splitext.
  destruct (Z.ltb_spec (rfind p "/"%char) (rfind p "."%char)) as [Hlt|_];
    [|now left].
  destruct (Os.has_non_dot _ _ _) eqn:Hnd; [|now left].
  right.
  destruct (rfind_spec p "."%char) as [[_ Hd] | (n & e & Hd & Hdrop & He)].
  { exfalso. rewrite Hd in Hlt.
    destruct (rfind_spec p "/"%char) as [[_ Hs] | (m & ? & Hs & _)]; lia. }
  destruct (rfind_spec p "/"%char)
    as [[Hnone Hs] | (m & r & Hs & Hdrop' & Hr)];
    rewrite Hs, Hd in Hnd, Hlt.
  - replace (Z.to_nat (-1 + 1)) with 0 in Hnd by lia.
    replace (Z.to_nat (Z.of_nat n - (-1 + 1))) with n in Hnd by lia.
    apply (split_from_positions p "" p e n); try assumption;
      [reflexivity | now left].
  - replace (Z.to_nat (Z.of_nat m + 1)) with (S m) in Hnd by lia.
    replace (Z.to_nat (Z.of_nat n - (Z.of_nat m + 1)))
      with (n - S m) in Hnd by lia.
    assert (Hlen : String.length (take m p ++ "/") = S m).
    { rewrite length_append,
        (drop_cons_length m p "/"%char r Hdrop'). simpl. lia. }
    assert (Hp : p = (take m p ++ "/") ++ r).
    { rewrite append_assoc. simpl. rewrite <- Hdrop'. symmetry.
      apply take_drop. }
    apply (split_from_positions p (take m p ++ "/") r e (n - S m));
      try assumption.
    + right. now exists (take m p).
    + assert (Hr' : drop (S m) p = r).
      { replace (S m) with (m + 1) by lia.
        rewrite <- drop_drop, Hdrop'. reflexivity. }
      rewrite <- Hr', drop_drop.
      replace (S m + (n - S m)) with n by lia. exact Hdrop.
    + rewrite Hlen. exact Hnd.
Qed.

(** C8.  [file_extension] returns the pair that [os.path.splitext] makes of
    the path, a root and an extension, not the extension alone.  The two
    concatenate to the path, and the extension is empty or a period
    followed by characters free of periods and separators.  The pair is
    fixed by the shape of the path: when the last component holds a period
    after some character other than a period, the path is split at the
    last period; in every other case the root is the whole path and the
    extension is empty.  On ["test.txt"] it is [("test", ".txt")]. *)
Theorem file_extension_returns_splitext_pair :
  forall filepath : string,
    System.file_extension filepath = Os.path_splitext filepath
    /\ fst (System.file_extension filepath)
       ++ snd (System.file_extension filepath) = filepath
    /\ (snd (System.file_extension filepath) = ""
        \/ exists rest,
             snd (System.file_extension filepath) = String "."%char rest
             /\ PyStr.mem "."%char rest = false
             /\ PyStr.mem "/"%char rest = false)
    /\ (forall pre base e : string,
           filepath = pre ++ base ++ "." ++ e ->
           (pre = "" \/ exists x, pre = x ++ "/") ->
           PyStr.mem "/"%char base = false ->
           (exists u c v, base = u ++ String c v /\ c <> "."%char) ->
           PyStr.mem "."%char e = false ->
           PyStr.mem "/"%char e = false ->
           System.file_extension filepath = (pre ++ base, "." ++ e))
    /\ (~ (exists pre base e : string,
              filepath = pre ++ base ++ "." ++ e
              /\ (pre = "" \/ exists x, pre = x ++ "/")
              /\ PyStr.mem "/"%char base = false
              /\ (exists u c v, base = u ++ String c v /\ c <> "."%char)
              /\ PyStr.mem "."%char e = false
              /\ PyStr.mem "/"%char e = false) ->
        System.file_extension filepath = (filepath, ""))
    /\ System.file_extension "test.txt" = ("test", ".txt").
Proof.
  intros filepath. unfold System.file_extension.
  split; [reflexivity|].
  pose proof (path_splitext_spec filepath) as H.
  split; [|split; [|split; [|split; [|reflexivity]]]].
  - destruct (Os.path_splitext filepath) as [root ext]. simpl. tauto.
  - destruct (Os.path_splitext filepath) as [root ext]. simpl. tauto.
  - intros pre base e -> Hpre Hbase Hnd He_dot He_sep.
    now apply path_splitext_split.
  - intros Hnone.
    destruct (path_splitext_cases filepath) as [Hwhole|Hsplit];
      [exact Hwhole | contradiction].
Qed.

Lemma file_extension_pair_witness :
  "x.tar.gz" = "" ++ "x.tar" ++ "." ++ "gz"
  /\ System.file_extension "x.tar.gz" = ("" ++ "x.tar", "." ++ "gz").
Proof.
  split; [reflexivity|].
  assert (Hpre : "" = "" \/ exists x, "" = x ++ "/") by now left.
  assert (Hnd : exists u c v, "x.tar" = u ++ String c v /\ c <> "."%char).
  { exists "", "x"%char, ".tar". split; [reflexivity | discriminate]. }
  apply (proj1 (proj2 (proj2 (proj2
           (file_extension_returns_splitext_pair "x.tar.gz"))))
           "" "x.tar" "gz" eq_refl Hpre eq_refl Hnd eq_refl eq_refl).
Defined.

End ExtensionPair.
